(** * tap.py: a client for TAP services, embedded in Rocq

    The module under study is a thin HTTP client.  Its pure parts (the time
    formatter, the endpoint string, the job-identifier extraction) are
    embedded as functions; its effectful parts (HTTP requests, sleeping,
    printing, reading the clock) are embedded in a state-and-exception monad
    over an explicit [World], with the remote server, the XML and VOTable
    parsers and the notebook display facility taken as parameters.

    The durations that the formatter and the timer handle are Python
    floats: they are modelled as binary64 numbers ([spec_float] with a
    53-bit mantissa), with the comparisons, the product and the difference
    of IEEE 754 (rounding to nearest, ties to even, overflow to infinity,
    signed zeros, nan).  [%.3g] converts the exact value of a binary64
    number, correctly rounded, as CPython does.  [math.log10] belongs to
    the C library and is a parameter of the environment: the rounding of
    its result decides which unit is chosen next to a power of ten.  The
    length of a sleep is only compared with zero and recorded: it is kept
    as a rational. *)

From Stdlib Require Import ZArith QArith Qround Qpower Qabs Lqa String Ascii List Lia.
From Stdlib Require Import SpecFloat.
From stdpp Require Import base strings list gmap pretty.

Set Warnings "-register-all".
Open Scope string_scope.
Open Scope Z_scope.

(** ** Exceptions and outcomes *)

Inductive exn : Type :=
| TypeError
| AttributeError
| IndexError
| ValueError
| OverflowError
| UnicodeEncodeError        (* a [ValueError] in Python's hierarchy *)
| OSError
| InvalidURL                (* [http.client.InvalidURL] *)
| ExpatError
| XMLSyntaxError
| VOTableError
| UserError (tag : string).

Inductive outcome (A : Type) : Type :=
| Ok (a : A)
| Raise (e : exn).
Arguments Ok {A} a.
Arguments Raise {A} e.

(** Python's [seq[i]] for a list: a negative index counts from the end, an
    index outside [-len, len) raises [IndexError]. *)
Definition py_getitem {A} (l : list A) (i : Z) : outcome A :=
  let n := Z.of_nat (length l) in
  let j := if 0 <=? i then i else n + i in
  if (0 <=? j) && (j <? n) then
    match l !! Z.to_nat j with
    | Some a => Ok a
    | None => Raise IndexError
    end
  else Raise IndexError.

(** ** Exact arithmetic: the floor of the logarithm, rounding, [%.3g] *)

Definition Qlt_bool (a b : Q) : bool := negb (Qle_bool b a).

Definition ten : Q := 10 # 1.

(** [log10_search fuel k t] walks upward from exponent [k] until
    [t < 10^(k+1)]. *)
Fixpoint log10_search (fuel : nat) (k : Z) (t : Q) : Z :=
  match fuel with
  | O => k
  | S n => if Qlt_bool t (Qpower ten (k + 1)) then k
           else log10_search n (k + 1) t
  end.

(** The floor of the base-10 logarithm of [0 < t]: the integer [k] with
    [10^k <= t < 10^(k+1)].  The search starts below [1/den] and is given
    enough fuel to pass [num]. *)
Definition floor_log10 (t : Q) : Z :=
  let lo := - Z.pos (Pos.size (Qden t)) in
  let hi := Z.log2 (Qnum t) + 1 in
  log10_search (Z.to_nat (hi - lo)) lo t.

(** Rounding to the nearest integer, ties to even, as the C library's
    correctly rounded conversions do. *)
Definition round_half_even (x : Q) : Z :=
  let f := Qfloor x in
  match Qcompare (x - inject_Z f) (1 # 2) with
  | Lt => f
  | Gt => f + 1
  | Eq => if Z.even f then f else f + 1
  end.

(** The three significant digits [d] (with [100 <= d <= 999]) and decimal
    exponent [e] of a positive [x]: [x] is [d * 10^(e-2)] after rounding. *)
Definition sig3 (x : Q) : Z * Z :=
  let e := floor_log10 x in
  let d := round_half_even (x / Qpower ten (e - 2)) in
  if d =? 1000 then (100, e + 1) else (d, e).

Definition digit (d : Z) : string := pretty (d mod 10).

(** The fraction digits with the trailing zeros removed. *)
Fixpoint strip_zeros (ds : list Z) : list Z :=
  match ds with
  | [] => []
  | d :: r =>
      match strip_zeros r with
      | [] => if d =? 0 then [] else [d]
      | r' => d :: r'
      end
  end.

Definition digits_str (ds : list Z) : string :=
  foldr (fun d s => digit d ++ s) "" ds.

Definition with_fraction (ip : string) (frac : list Z) : string :=
  match strip_zeros frac with
  | [] => ip
  | fs => ip ++ "." ++ digits_str fs
  end.

(** Exponent field of the [e] style: a sign and at least two digits. *)
Definition exp_field (e : Z) : string :=
  (if e <? 0 then "-" else "+") ++
  (if Z.abs e <? 10 then "0" ++ pretty (Z.abs e) else pretty (Z.abs e)).

(** [%.3g] of a positive number given its digits [d] and exponent [X]:
    fixed notation when [-4 <= X < 3], scientific otherwise. *)
Definition render_g3 (d X : Z) : string :=
  let d2 := d / 100 in
  let d1 := (d / 10) mod 10 in
  let d0 := d mod 10 in
  if (-4 <=? X) && (X <? 3) then
    if X =? 2 then pretty d
    else if X =? 1 then with_fraction (pretty (d / 10)) [d0]
    else if X =? 0 then with_fraction (pretty d2) [d1; d0]
    else with_fraction "0" (replicate (Z.to_nat (- X - 1)) 0 ++ [d2; d1; d0])
  else with_fraction (pretty d2) [d1; d0] ++ "e" ++ exp_field X.

(** [%.3g] of the number whose exact value is [x]. *)
Definition format_g3 (x : Q) : string :=
  match Qnum x with
  | Z0 => "0"
  | Zpos _ => let '(d, e) := sig3 x in render_g3 d e
  | Zneg _ => let '(d, e) := sig3 (- x) in "-" ++ render_g3 d e
  end.

(** ** Python floats: binary64 *)

Definition float : Type := spec_float.

(** The float of an integer, rounded to nearest when it has more than 53
    bits. *)
Definition float_of_Z (z : Z) : float := binary_normalize 53 1024 z 0 false.

(** [x * y] and [x - y] on floats. *)
Definition float_mul (x y : float) : float := SFmul 53 1024 x y.
Definition float_sub (x y : float) : float := SFsub 53 1024 x y.

(** [x < y] and [x <= y] on floats: false when either side is nan. *)
Definition float_lt (x y : float) : bool := SFltb x y.
Definition float_le (x y : float) : bool := SFleb x y.

(** The exact value of a finite float, [m * 2^e] with its sign (zero for
    the zeros; infinities and nan have no value and are given zero). *)
Definition float_value (x : float) : Q :=
  match x with
  | S754_finite s m e =>
      let n := if s then Z.neg m else Z.pos m in
      match e with
      | Zneg p => n # (2 ^ p)%positive
      | _ => (n * 2 ^ e) # 1
      end
  | _ => 0
  end.

(** [math.floor(x)]: the largest integer not above [x]; an infinity is an
    [OverflowError] and nan a [ValueError]. *)
Definition math_floor (x : float) : outcome Z :=
  match x with
  | S754_infinity _ => Raise OverflowError
  | S754_nan => Raise ValueError
  | _ => Ok (Qfloor (float_value x))
  end.

(** ["%.3g" % x] for a float: the zeros keep their sign, the infinities
    and nan are spelled out, a finite number is converted from its exact
    value. *)
Definition format_float_g3 (x : float) : string :=
  match x with
  | S754_zero false => "0"
  | S754_zero true => "-0"
  | S754_infinity false => "inf"
  | S754_infinity true => "-inf"
  | S754_nan => "nan"
  | S754_finite _ _ _ => format_g3 (float_value x)
  end.

(** ** The state-and-exception monad

    A Python call either returns or raises, and the mutations made before a
    raise persist: a computation maps a state to an outcome and a state. *)

Definition M (S A : Type) : Type := S -> outcome A * S.

Definition ret {S A} (a : A) : M S A := fun s => (Ok a, s).
Definition raise {S A} (e : exn) : M S A := fun s => (Raise e, s).
Definition bind {S A B} (c : M S A) (k : A -> M S B) : M S B :=
  fun s => match c s with
           | (Ok a, s') => k a s'
           | (Raise e, s') => (Raise e, s')
           end.
Definition modify {S} (f : S -> S) : M S unit := fun s => (Ok tt, f s).
Definition gets {S A} (f : S -> A) : M S A := fun s => (Ok (f s), s).

Declare Scope py_scope.
Delimit Scope py_scope with py.
Notation "x <- c ;; k" := (bind c (fun x => k))
  (at level 100, c at next level, right associativity) : py_scope.
Notation "c ;;; k" := (bind c (fun _ => k))
  (at level 100, right associativity) : py_scope.
Open Scope py_scope.

(** A computation on the world alone, run by a method of an object [X]. *)
Definition liftW {X W A} (c : M W A) : M (X * W) A :=
  fun s => let '(r, w') := c (snd s) in (r, (fst s, w')).
(** An update of the object ([self.attr = v]). *)
Definition self_set {X W} (f : X -> X) : M (X * W) unit :=
  modify (fun s => (f (fst s), snd s)).
Definition self_get {X W A} (f : X -> A) : M (X * W) A :=
  gets (fun s => f (fst s)).

(** ** HTTP: requests, responses and the world *)

Definition form : Type := list (string * string).

Inductive Request : Type :=
| HTTPConnection_request (host : string) (port : Z) (method url : string)
    (body : option form) (headers : list (string * string))
| requests_post (url : string) (data : form).

Record Response : Type := {
  resp_status : Z;
  resp_reason : string;
  getheader : string -> option string;
  resp_body : string
}.

Record World : Type := {
  sent : list Request;      (* every request issued, oldest first *)
  slept : list Q;           (* every [time.sleep] performed, oldest first *)
  stdout : list string;     (* printed lines, oldest first *)
  clock_reads : nat;        (* number of [time.time()] calls so far *)
  shown : list string       (* objects handed to [display], by their text *)
}.

Definition world0 : World :=
  {| sent := []; slept := []; stdout := []; clock_reads := 0%nat; shown := [] |}.

Definition log_request (rq : Request) (w : World) : World :=
  {| sent := sent w ++ [rq]; slept := slept w; stdout := stdout w;
     clock_reads := clock_reads w; shown := shown w |}.
Definition log_sleep (d : Q) (w : World) : World :=
  {| sent := sent w; slept := slept w ++ [d]; stdout := stdout w;
     clock_reads := clock_reads w; shown := shown w |}.
Definition log_print (line : string) (w : World) : World :=
  {| sent := sent w; slept := slept w; stdout := stdout w ++ [line];
     clock_reads := clock_reads w; shown := shown w |}.
Definition log_clock (w : World) : World :=
  {| sent := sent w; slept := slept w; stdout := stdout w;
     clock_reads := S (clock_reads w); shown := shown w |}.
Definition log_shown (text : string) (w : World) : World :=
  {| sent := sent w; slept := slept w; stdout := stdout w;
     clock_reads := clock_reads w; shown := shown w ++ [text] |}.

(** ** Parsed documents *)

(** [xml.dom.minidom]: text nodes and elements. *)
Inductive Node : Type :=
| Text (data : string)
| Element (tagName : string) (childNodes : list Node).

(** The element itself when its tag matches (the name [*] matches every
    tag), then the matches below it, in document order. *)
Fixpoint matching_elements (name : string) (n : Node) : list Node :=
  match n with
  | Text _ => []
  | Element tg ch =>
      (if String.eqb name "*" || String.eqb tg name then [n] else []) ++
      flat_map (matching_elements name) ch
  end.

(** [node.getElementsByTagName(name)]: the matching descendants. *)
Definition getElementsByTagName (n : Node) (name : string) : list Node :=
  match n with
  | Text _ => []
  | Element _ ch => flat_map (matching_elements name) ch
  end.

Definition firstChild (n : Node) : option Node :=
  match n with
  | Text _ => None
  | Element _ ch => head ch
  end.

(** [lxml.etree]: an element with its tag, its text and its child elements. *)
Inductive XElem : Type :=
| XE (tag : string) (text : option string) (children : list XElem).

Definition xtag (e : XElem) : string := let 'XE t _ _ := e in t.
Definition xtext (e : XElem) : option string := let 'XE _ t _ := e in t.
Definition xchildren (e : XElem) : list XElem := let 'XE _ _ c := e in c.

(** The XPath step [name]: the children with that tag. *)
Definition xchild (name : string) (e : XElem) : list XElem :=
  filter (fun c => xtag c = name) (xchildren e).
(** The XPath step [name[1]]: the first child with that tag. *)
Definition xchild1 (name : string) (e : XElem) : list XElem :=
  take 1 (xchild name e).

(** [tree.xpath('/Sesame/Target/Resolver[1]/' + field)]. *)
Definition xpath_resolver_field (field : string) (tree : XElem) : list XElem :=
  if String.eqb (xtag tree) "Sesame" then
    flat_map (xchild field)
      (flat_map (xchild1 "Resolver") (xchild "Target" tree))
  else [].

(** The Resolver entries of a response, [/Sesame/Target/Resolver], in
    document order. *)
Definition resolver_entries (tree : XElem) : list XElem :=
  if String.eqb (xtag tree) "Sesame" then
    flat_map (xchild "Resolver") (xchild "Target" tree)
  else [].

(** ** The environment: the collaborators outside the module *)

Class Env : Type := {
  (** [astropy.table.Table] and [Table.read(BytesIO(b), format="votable")];
      [None] is a raised parse error. *)
  Table : Type;
  Table_read : string -> option Table;
  (** The remote side: the answer to the [n]-th request issued; [None] is a
      connection failure. *)
  server : nat -> Request -> option Response;
  (** [xml.dom.minidom.parseString], giving the document node, and
      [node.toxml()]. *)
  parseString : string -> option Node;
  toxml : Node -> string;
  (** [lxml.etree.fromstring] and [float(text)]. *)
  etree_fromstring : string -> option XElem;
  float_of_text : string -> option Q;
  (** [math.log10] as the platform computes it, on a positive float: the
      result is rounded, so next to a power of ten its floor can differ
      from the floor of the logarithm. *)
  math_log10 : float -> float;
  (** [time.time()]: the [n]-th reading of the clock. *)
  clock : nat -> float;
  (** [IPython.display.display], [None] when IPython is not importable
      (tap.py, lines 19-23). *)
  display : option (string -> M World unit)
}.

Section WorldOps.
Context `{Env}.

(** Send a request and read the response. *)
Definition http (rq : Request) : M World Response :=
  fun w =>
    match server (length (sent w)) rq with
    | Some r => (Ok r, log_request rq w)
    | None => (Raise OSError, log_request rq w)
    end.

(** [time.sleep(secs)]: a negative length is a [ValueError]. *)
Definition time_sleep (secs : Q) : M World unit :=
  if Qlt_bool secs 0 then raise ValueError
  else modify (log_sleep secs).

Definition time_time : M World float :=
  fun w => (Ok (clock (clock_reads w)), log_clock w).

Definition print (line : string) : M World unit := modify (log_print line).

(** [display(obj)] with the module-level name, which may be [None]. *)
Definition call_display (text : string) : M World unit :=
  match display with
  | Some d => d text
  | None => raise TypeError
  end.
End WorldOps.

(** ** The time formatter (tap.py, lines 26-36) *)

Definition units : list string := ["s"; "ms"; "us"; "ns"].
(** [[1, 1e3, 1e6, 1e9]]: the integer 1 multiplies a float as 1.0 does. *)
Definition scaling : list float :=
  [float_of_Z 1; float_of_Z 1000; float_of_Z 1000000; float_of_Z 1000000000].

(** The literals [0.0] and [1000.0]. *)
Definition float_0 : float := S754_zero false.
Definition float_1000 : float := float_of_Z 1000.

Section Formatter.
Context `{Env}.

(** [math.log10(t)] is a finite number whose floor is [z]. *)
Definition log10_floor (t : float) (z : Z) : Prop :=
  math_floor (math_log10 t) = Ok z.

(** What every platform's [math.log10] gives for a float between 0 and
    1000: a finite number, 3 at most (the logarithm is below 3, and its
    rounding reaches 3 just below one thousand). *)
Definition log10_below_1000 (t : float) : Prop :=
  float_lt float_0 t = true -> float_lt t float_1000 = true ->
  exists z, log10_floor t z /\ z <= 3.

(** The branch on [t] choosing the index into [units] and [scaling]. *)
Definition time_order (t : float) : outcome Z :=
  if float_lt float_0 t && float_lt t float_1000 then
    match math_floor (math_log10 t) with
    | Ok z => Ok (Z.min (- (z / 3)) 3)
    | Raise e => Raise e
    end
  else if float_le float_1000 t then Ok 0
  else Ok 3.

Definition _pretty_print_time (t : float) : outcome string :=
  match time_order t with
  | Raise e => Raise e
  | Ok order =>
      match py_getitem scaling order, py_getitem units order with
      | Ok sc, Ok u => Ok (format_float_g3 (float_mul t sc) ++ " " ++ u)
      | Raise e, _ => Raise e
      | _, Raise e => Raise e
      end
  end.
End Formatter.

(** ** String helpers *)

(** [s.rfind(c)] for a one-character [c]: the highest index of [c] in [s],
    or [-1]; [i] is the index of the head of [s]. *)
Fixpoint rfind_from (c : ascii) (s : string) (i : Z) : Z :=
  match s with
  | EmptyString => -1
  | String a r =>
      let j := rfind_from c r (i + 1) in
      if 0 <=? j then j else if Ascii.eqb a c then i else -1
  end.
Definition rfind (c : ascii) (s : string) : Z := rfind_from c s 0.

Fixpoint drop_chars (n : nat) (s : string) : string :=
  match n, s with
  | O, _ => s
  | S m, EmptyString => EmptyString
  | S m, String _ r => drop_chars m r
  end.

(** [s[i:]]: a negative start counts from the end and is clamped at 0. *)
Definition slice_from (s : string) (i : Z) : string :=
  let n := Z.of_nat (String.length s) in
  let start := if 0 <=? i then i else Z.max 0 (n + i) in
  drop_chars (Z.to_nat start) s.

(** Whether the character [c] occurs in [s]. *)
Fixpoint has_char (c : ascii) (s : string) : bool :=
  match s with
  | EmptyString => false
  | String a r => Ascii.eqb a c || has_char c r
  end.

(** The fixed form fields sent with every query. *)
Definition query_form (adql : string) : form :=
  [("query", adql); ("request", "doQuery"); ("lang", "adql");
   ("format", "votable"); ("phase", "run")].

(** ** class TAP_AsyncQuery (tap.py, lines 39-156) *)

Module TAP_AsyncQuery.
Section Methods.
Context `{Env}.

Record t : Type := {
  adql : string;
  host : string;
  port : Z;
  path : string;
  location : option string;
  jobid : option string;
  response : option Response;
  data : option string
}.

Definition __init__ (adql_query host path : string) (port : Z) : t :=
  {| adql := adql_query; host := host; port := port; path := path;
     location := None; jobid := None; response := None; data := None |}.

Definition set_response (r : Response) (q : t) : t :=
  {| adql := adql q; host := host q; port := port q; path := path q;
     location := location q; jobid := jobid q; response := Some r;
     data := data q |}.
Definition set_location (l : option string) (q : t) : t :=
  {| adql := adql q; host := host q; port := port q; path := path q;
     location := l; jobid := jobid q; response := response q;
     data := data q |}.
Definition set_jobid (j : string) (q : t) : t :=
  {| adql := adql q; host := host q; port := port q; path := path q;
     location := location q; jobid := Some j; response := response q;
     data := data q |}.
Definition set_data (d : string) (q : t) : t :=
  {| adql := adql q; host := host q; port := port q; path := path q;
     location := location q; jobid := jobid q; response := response q;
     data := Some d |}.

Definition submit_headers : list (string * string) :=
  [("Content-type", "application/x-www-form-urlencoded");
   ("Accept", "text/plain")].

Definition submit_request (q : t) : Request :=
  HTTPConnection_request (host q) (port q) "POST" (path q)
    (Some (query_form (adql q))) submit_headers.

(** [self.location[self.location.rfind('/') + 1:]] *)
Definition jobid_of_location (loc : string) : string :=
  slice_from loc (rfind "/"%char loc + 1).

Definition submit (silent : bool) : M (t * World) unit :=
  q <- self_get id ;;
  r <- liftW (http (submit_request q)) ;;
  self_set (set_response r) ;;;
  self_set (set_location (getheader r "location")) ;;;
  match getheader r "location" with
  | None => raise AttributeError
  | Some loc =>
      let j := jobid_of_location loc in
      self_set (set_jobid j) ;;;
      if negb silent then
        liftW (print ("Query Status: " ++ pretty (resp_status r) ++ " " ++
                      "Reason: " ++ resp_reason r)) ;;;
        liftW (print ("Location: " ++ loc)) ;;;
        liftW (print ("Job id: " ++ j))
      else ret tt
  end.

Definition status_request (q : t) (id : string) : Request :=
  HTTPConnection_request (host q) (port q) "GET" (path q ++ "/" ++ id)
    None [].

(** The phase read off a status response body. *)
Definition phase_of_body (body : string) : outcome string :=
  match parseString body with
  | None => Raise ExpatError
  | Some dom =>
      match getElementsByTagName dom "uws:phase" with
      | [] => Raise IndexError
      | phase_element :: _ =>
          match firstChild phase_element with
          | None => Raise AttributeError
          | Some phase_value_element => Ok (toxml phase_value_element)
          end
      end
  end.

Definition status : M (t * World) string :=
  q <- self_get id ;;
  match jobid q with
  | None => raise TypeError
  | Some id =>
      r <- liftW (http (status_request q id)) ;;
      self_set (set_response r) ;;;
      match phase_of_body (resp_body r) with
      | Ok phase => ret phase
      | Raise e => raise e
      end
  end.

Definition finished : M (t * World) bool :=
  s <- status ;;
  ret (String.eqb s "COMPLETED").

(** The loop [while (not self.finished) & wait: time.sleep(sleep)].  Both
    operands of [&] are evaluated, so [finished] is read on every test.
    [None] means the fuel ran out with the loop still running. *)
Fixpoint wait_loop (fuel : nat) (sleep : Q) (wait : bool) (s : t * World)
  : option (outcome unit * (t * World)) :=
  match fuel with
  | O => None
  | S n =>
      match finished s with
      | (Raise e, s1) => Some (Raise e, s1)
      | (Ok b, s1) =>
          if negb b && wait then
            match liftW (time_sleep sleep) s1 with
            | (Raise e, s2) => Some (Raise e, s2)
            | (Ok _, s2) => wait_loop n sleep wait s2
            end
          else Some (Ok tt, s1)
      end
  end.

Definition result_request (q : t) (id : string) : Request :=
  HTTPConnection_request (host q) (port q) "GET"
    (path q ++ "/" ++ id ++ "/results/result") None [].

(** The tail of [get]: request the result resource and parse its body. *)
Definition fetch_result : M (t * World) (option Table) :=
  q <- self_get id ;;
  match jobid q with
  | None => raise TypeError
  | Some id =>
      r <- liftW (http (result_request q id)) ;;
      self_set (set_response r) ;;;
      self_set (set_data (resp_body r)) ;;;
      match Table_read (resp_body r) with
      | Some table => ret (Some table)
      | None => raise VOTableError
      end
  end.

(** The part of [get] after the loop: [finished] is read once more. *)
Definition get_after_wait : M (t * World) (option Table) :=
  b <- finished ;;
  if negb b then ret None else fetch_result.

Definition get (fuel : nat) (sleep : Q) (wait : bool) (s : t * World)
  : option (outcome (option Table) * (t * World)) :=
  match wait_loop fuel sleep wait s with
  | None => None
  | Some (Raise e, s1) => Some (Raise e, s1)
  | Some (Ok _, s1) => Some (get_after_wait s1)
  end.

(** The states a job object can be in while no [submit] has returned:
    it is created, its methods are called and fail or return, and the
    world moves on between the calls. *)
Inductive unsubmitted : t * World -> Prop :=
| unsub_new adql_query host path port w :
    unsubmitted (__init__ adql_query host path port, w)
| unsub_world q w w' :
    unsubmitted (q, w) -> unsubmitted (q, w')
| unsub_submit s silent e s' :
    unsubmitted s -> submit silent s = (Raise e, s') -> unsubmitted s'
| unsub_status s r s' :
    unsubmitted s -> status s = (r, s') -> unsubmitted s'
| unsub_finished s r s' :
    unsubmitted s -> finished s = (r, s') -> unsubmitted s'
| unsub_get s fuel sleep wait r s' :
    unsubmitted s -> get fuel sleep wait s = Some (r, s') -> unsubmitted s'.

(** The phase a status poll reads when it goes out as the [n]-th request
    of the world. *)
Definition poll (q : t) (id : string) (n : nat) : outcome string :=
  match server n (status_request q id) with
  | None => Raise OSError
  | Some r => phase_of_body (resp_body r)
  end.

(** Two states of one job object: only [response] and [data] differ. *)
Definition same_job (q q' : t) : Prop :=
  host q' = host q /\ port q' = port q /\ path q' = path q
  /\ jobid q' = jobid q /\ adql q' = adql q /\ location q' = location q.

(** The world after [n] turns of the waiting loop: each turn sends the
    status request [rq] and then sleeps. *)
Fixpoint after_turns (rq : Request) (sleep : Q) (n : nat) (w : World)
  : World :=
  match n with
  | O => w
  | S m => after_turns rq sleep m (log_sleep sleep (log_request rq w))
  end.
(** The line feed of the Python string literals. *)
Definition nl : string := String "010" EmptyString.

(** [format] of an attribute that may be [None]. *)
Definition format_optional (o : option string) : string :=
  match o with
  | Some s => s
  | None => "None"
  end.

(** [_repr_markdown_] (tap.py, lines 147-156).  The import inside the
    method succeeds where the one at the head of the module did, that is
    where [display] is there; only [ImportError] is caught.  On a text
    that names no URL and no file, [Markdown(text)._repr_markdown_()] is
    the text. *)
Definition _repr_markdown_ (q : t) : outcome (option string) :=
  match display with
  | None => Ok None
  | Some _ =>
      match response q with
      | None => Raise AttributeError
      | Some r =>
          Ok (Some ("*ADQL Query*" ++ nl ++ "```mysql" ++ nl ++ adql q ++ nl
                    ++ "```" ++ nl
                    ++ "* *Status*:   `" ++ pretty (resp_status r)
                    ++ "`, Reason `" ++ resp_reason r ++ "`" ++ nl
                    ++ "* *Location*: " ++ format_optional (location q) ++ nl
                    ++ "* *Job id*:   `" ++ format_optional (jobid q) ++ "`"
                    ++ nl ++ nl ++ "                            "))
      end
  end.
End Methods.
End TAP_AsyncQuery.

(** ** class TAP_Service (tap.py, lines 159-236) and its presets *)

Module TAP_Service.
Section Methods.
Context `{Env}.

Record t : Type := {
  host : string;
  port : Z;
  path : string;
  response : option Response    (* set by [query] when parsing fails *)
}.

Definition __init__ (host path : string) (port : Z) : t :=
  {| host := host; port := port; path := path; response := None |}.

Definition set_response (r : Response) (s : t) : t :=
  {| host := host s; port := port s; path := path s; response := Some r |}.

(** ["http://{s.host:s}{s.path:s}".format(s=self)] *)
Definition tap_endpoint (s : t) : string :=
  "http://" ++ host s ++ path s.

(** Binding [**kwargs] to the signature [submit(self, silent=False)]: any
    other keyword is a [TypeError]. *)
Definition bind_submit_kwargs (kwargs : gmap string bool) : outcome bool :=
  if decide (dom kwargs ⊆ ({["silent"]} : gset string)) then
    Ok (default false (kwargs !! "silent"))
  else Raise TypeError.

Definition query_async (adql_query : string) (submit : bool)
    (kwargs : gmap string bool) : M (t * World) TAP_AsyncQuery.t :=
  self <- self_get id ;;
  let q := TAP_AsyncQuery.__init__ adql_query (host self)
             (path self ++ "/async") (port self) in
  if submit then
    match bind_submit_kwargs kwargs with
    | Raise e => raise e
    | Ok silent =>
        fun st =>
          match TAP_AsyncQuery.submit silent (q, snd st) with
          | (Ok _, (q', w')) => (Ok q', (fst st, w'))
          | (Raise e, (_, w')) => (Raise e, (fst st, w'))
          end
    end
  else ret q.

(** What [query] hands back: a table, nothing, or a job. *)
Inductive query_result : Type :=
| QTable (table : Table)
| QNone
| QJob (q : TAP_AsyncQuery.t).

Definition sync_request (s : t) (adql_query : string) : Request :=
  requests_post (tap_endpoint s ++ "/sync") (query_form adql_query).

Definition query (adql_query : string) (sync : bool)
  : M (t * World) query_result :=
  if sync then
    self <- self_get id ;;
    r <- liftW (http (sync_request self adql_query)) ;;
    match Table_read (resp_body r) with
    | Some table => ret (QTable table)
    | None => self_set (set_response r) ;;; ret QNone
    end
  else
    q <- query_async adql_query true ∅ ;;
    ret (QJob q).
End Methods.
End TAP_Service.

Definition TAPVizieR : TAP_Service.t :=
  TAP_Service.__init__ "tapvizier.u-strasbg.fr" "/TAPVizieR/tap" 80.

Definition GaiaArchive : TAP_Service.t :=
  TAP_Service.__init__ "gea.esac.esa.int" "/tap-server/tap" 80.

(** ** resolve (tap.py, lines 256-296) *)

Inductive resolved : Type :=
| EmptyList                    (* [[]] *)
| RaDec (ra dec : Q).          (* the tuple [(ra, dec)] *)

Section Resolve.
Context `{Env}.

Definition resolve_path (objectName : string) : string :=
  "/cgi-bin/nph-sesame/-ox?" ++ objectName.

Definition resolve_request (objectName : string) : Request :=
  HTTPConnection_request "cdsweb.u-strasbg.fr" 80 "GET"
    (resolve_path objectName) None [].

(** [http.client] checks the path before it connects: [putrequest] refuses
    a path that holds a blank or a control character (the characters up to
    code 32, and 127) with [InvalidURL], then one that holds a character
    outside ASCII with [UnicodeEncodeError].  The path of [resolve] holds
    the caller's text as it is.  (The paths of a job are made of the
    service's path and of the identifier the server gave, and are taken
    to pass the check.) *)
Fixpoint any_char (p : ascii -> bool) (s : string) : bool :=
  match s with
  | EmptyString => false
  | String c r => p c || any_char p r
  end.

Definition disallowed_url_char (c : ascii) : bool :=
  (nat_of_ascii c <=? 32)%nat || (nat_of_ascii c =? 127)%nat.

Definition non_ascii_char (c : ascii) : bool := (128 <=? nat_of_ascii c)%nat.

Definition putrequest_check (url : string) : outcome unit :=
  if any_char disallowed_url_char url then Raise InvalidURL
  else if any_char non_ascii_char url then Raise UnicodeEncodeError
  else Ok tt.

(** [float(el.text)]: [float(None)] is a [TypeError], unparsable text a
    [ValueError]. *)
Definition float_of_element (el : XElem) : outcome Q :=
  match xtext el with
  | None => Raise TypeError
  | Some s =>
      match float_of_text s with
      | Some x => Ok x
      | None => Raise ValueError
      end
  end.

(** The part of [resolve] after the tree is parsed. *)
Definition resolve_tree (tree : XElem) : outcome resolved :=
  let pathRa := xpath_resolver_field "jradeg" tree in
  let pathDec := xpath_resolver_field "jdedeg" tree in
  match pathRa with
  | [] => Ok EmptyList
  | ra_el :: _ =>
      match float_of_element ra_el with
      | Raise e => Raise e
      | Ok ra =>
          match pathDec with
          | [] => Raise IndexError
          | dec_el :: _ =>
              match float_of_element dec_el with
              | Raise e => Raise e
              | Ok dec => Ok (RaDec ra dec)
              end
          end
      end
  end.

Definition resolve (objectName : string) : M World resolved :=
  match putrequest_check (resolve_path objectName) with
  | Raise e => raise e
  | Ok _ =>
      r <- http (resolve_request objectName) ;;
      match etree_fromstring (resp_body r) with
      | None => raise XMLSyntaxError
      | Some tree =>
          match resolve_tree tree with
          | Ok v => ret v
          | Raise e => raise e
          end
      end
  end.
End Resolve.

(** ** class timeit (tap.py, lines 329-372) *)

Module timeit.
Section Methods.
Context `{Env}.
(** The wrapped callable takes an [A] and returns a [B]; it may act on the
    world and may raise. *)
Context {A B : Type}.

Record t : Type := {
  func : option (A -> M World B);
  text : string;
  start : option float;
  stop : option float
}.

Definition __init__ (func : option (A -> M World B)) : t :=
  {| func := func; text := ""; start := None; stop := None |}.

Definition _pretty_print_time (t : float) : outcome string :=
  let order :=
    if float_lt float_0 t && float_lt t float_1000 then
      match math_floor (math_log10 t) with
      | Ok z => Ok (Z.min (- (z / 3)) 3)
      | Raise e => Raise e
      end
    else if float_le float_1000 t then Ok 0
    else Ok 3 in
  match order with
  | Raise e => Raise e
  | Ok order =>
      match py_getitem scaling order, py_getitem units order with
      | Ok sc, Ok u => Ok (format_float_g3 (float_mul t sc) ++ " " ++ u)
      | Raise e, _ => Raise e
      | _, Raise e => Raise e
      end
  end.

Definition __enter__ : M (t * World) unit :=
  now <- liftW time_time ;;
  self_set (fun s => {| func := func s; text := text s;
                        start := Some now; stop := stop s |}).

Definition __exit__ : M (t * World) unit :=
  now <- liftW time_time ;;
  self_set (fun s => {| func := func s; text := text s;
                        start := start s; stop := Some now |}) ;;;
  self <- self_get id ;;
  match start self with
  | None => raise AttributeError
  | Some t0 =>
      match _pretty_print_time (float_sub now t0) with
      | Raise e => raise e
      | Ok txt =>
          self_set (fun s => {| func := func s; text := txt;
                                start := start s; stop := stop s |}) ;;;
          liftW (call_display txt)
      end
  end.

(** [with timeit(): body]: [__exit__] runs however the body ends and
    returns nothing, so the body's exception is re-raised unless
    [__exit__] raises itself. *)
Definition with_timeit {R} (body : M World R) : M World R :=
  fun w =>
    match __enter__ (__init__ None, w) with
    | (Raise e, (_, w1)) => (Raise e, w1)
    | (Ok _, (ctx, w1)) =>
        let '(r, w2) := body w1 in
        match __exit__ (ctx, w2) with
        | (Raise e, (_, w3)) => (Raise e, w3)
        | (Ok _, (_, w3)) => (r, w3)
        end
    end.

(** The time between the clock reading taken in world [w] and the one
    taken in world [w2]: what [__exit__] formats when [__enter__] ran in
    [w] and the body left [w2]. *)
Definition elapsed (w w2 : World) : float :=
  float_sub (clock (clock_reads w2)) (clock (clock_reads w)).

(** Calling the instance on its arguments; [None] is Python's [None] of
    the early return. *)
Definition __call__ (self : t) (args : A) : M World (option B) :=
  match func self with
  | None => ret None
  | Some f => with_timeit (result <- f args ;; ret (Some result))
  end.
End Methods.
End timeit.


(** ** A mock environment

    A stand-in for the remote services, in the manner of a test double: the
    TAP server answers a POST with a job location and the [n]-th request,
    when it is a GET, with the phase [phase n] as body; the name resolver's
    answer parses to [tree]; [with_display] tells whether IPython is
    there; the clock advances by half a second at each reading; the
    logarithm is reported rounded down to an integer. *)

Definition mock_response (loc : option string) (body : string) : Response :=
  {| resp_status := 200;
     resp_reason := "OK";
     getheader := fun h => if String.eqb h "location" then loc else None;
     resp_body := body |}.

Definition mock_server (phase : nat -> string) (n : nat) (rq : Request)
  : option Response :=
  match rq with
  | HTTPConnection_request _ _ method _ _ _ =>
      if String.eqb method "POST"
      then Some (mock_response (Some "http://example.org/tap/async/1234") "")
      else Some (mock_response None (phase n))
  | requests_post _ _ => Some (mock_response None "<VOTABLE/>")
  end.

Definition mock_env (phase : nat -> string) (tree : XElem)
    (with_display : bool) : Env :=
  {| Table := string;
     Table_read := fun b => if String.eqb b "" then None else Some b;
     server := mock_server phase;
     parseString := fun b =>
       Some (Element "#document"
               [Element "uws:job" [Element "uws:phase" [Text b]]]);
     toxml := fun n => match n with Text d => d | Element _ _ => "" end;
     etree_fromstring := fun _ => Some tree;
     float_of_text := fun s =>
       if String.eqb s "10.68" then Some (1068 # 100)%Q
       else if String.eqb s "41.27" then Some (4127 # 100)%Q
       else None;
     math_log10 := fun t => float_of_Z (floor_log10 (float_value t));
     clock := fun n => binary_normalize 53 1024 (Z.of_nat n) (-1) false;
     display :=
       if with_display then Some (fun text => modify (log_shown text))
       else None |}.

(** Floats written as Python writes them, by mantissa and exponent:
    [0.5], [1.0] and [1500.0]; [1e-06], which is [0x1.0c6f7a0b5ed8dp-20]
    and lies below a millionth; [999.9999999999999], the largest float
    below one thousand, [0x1.f3fffffffffffp+9]; [0.1005], which is
    [0x1.9ba5e353f7ceep-4], and [0.9999], [0x1.fff2e48e8a71ep-1]. *)
Definition float_half : float := S754_finite false 4503599627370496 (-53).
Definition float_1e_06 : float := S754_finite false 4722366482869645 (-72).
Definition below_1000 : float := S754_finite false 8796093022207999 (-43).
Definition float_0_1005 : float := S754_finite false 7241788200811758 (-56).
Definition float_0_9999 : float := S754_finite false 9006298534815518 (-53).

(** A logarithm rounded to nearest, as the platform's is, at the two
    floats above that lie next to a power of ten: [math.log10(1e-06)] is
    [-6.0] and [math.log10(999.9999999999999)] is [3.0], the true
    logarithms being nearer to these integers than to the floats next to
    them.  Elsewhere the floor of the logarithm is reported. *)
Definition rounding_log10 (t : float) : float :=
  if SFeqb t float_1e_06 then float_of_Z (-6)
  else if SFeqb t below_1000 then float_of_Z 3
  else float_of_Z (floor_log10 (float_value t)).

Definition with_math_log10 (E : Env) (f : float -> float) : Env :=
  {| Table := @Table E;
     Table_read := @Table_read E;
     server := @server E;
     parseString := @parseString E;
     toxml := @toxml E;
     etree_fromstring := @etree_fromstring E;
     float_of_text := @float_of_text E;
     math_log10 := f;
     clock := @clock E;
     display := @display E |}.

(** Phases over time: two polls see EXECUTING, the later ones COMPLETED;
    or every poll sees ERROR. *)
Definition completes_at_2 (n : nat) : string :=
  if (n <? 2)%nat then "EXECUTING" else "COMPLETED".
Definition always_error (n : nat) : string := "ERROR".

(** A resolver answer with one entry carrying a position, and one whose
    entry carries none. *)
Definition sesame_m31 : XElem :=
  XE "Sesame" None
    [XE "Target" None
       [XE "name" (Some "M31") [];
        XE "Resolver" None
          [XE "jradeg" (Some "10.68") []; XE "jdedeg" (Some "41.27") []]]].

Definition sesame_no_position : XElem :=
  XE "Sesame" None
    [XE "Target" None
       [XE "name" (Some "M31") [];
        XE "Resolver" None [XE "INFO" (Some "no position") []]]].

Definition sesame_unresolved : XElem :=
  XE "Sesame" None
    [XE "Target" None
       [XE "name" (Some "nowhere") [];
        XE "INFO" (Some "Nothing found") []]].


(** A submitted job of the mock server. *)
Definition mock_job : TAP_AsyncQuery.t :=
  TAP_AsyncQuery.set_jobid "1234"
    (TAP_AsyncQuery.__init__ "SELECT 1" "example.org" "/tap/async" 80).

(** ** Further stand-ins for the remote side *)

Definition with_server (E : Env) (srv : nat -> Request -> option Response)
  : Env :=
  {| Table := @Table E;
     Table_read := @Table_read E;
     server := srv;
     parseString := @parseString E;
     toxml := @toxml E;
     etree_fromstring := @etree_fromstring E;
     float_of_text := @float_of_text E;
     math_log10 := @math_log10 E;
     clock := @clock E;
     display := @display E |}.

(** A server that answers every request with the body [body n] and no
    location header, and one that stops answering from the [k]-th request
    on. *)
Definition plain_server (body : nat -> string) (n : nat) (rq : Request)
  : option Response :=
  Some (mock_response None (body n)).

Definition failing_from (k : nat) (body : nat -> string) (n : nat)
    (rq : Request) : option Response :=
  if (n <? k)%nat then Some (mock_response None (body n)) else None.

(** The requests a job sends go to its own host and port. *)
Definition to_host (h : string) (p : Z) (rq : Request) : Prop :=
  match rq with
  | HTTPConnection_request h' p' _ _ _ _ => h' = h /\ p' = p
  | requests_post _ _ => False
  end.

Definition is_GET (rq : Request) : Prop :=
  match rq with
  | HTTPConnection_request _ _ method _ _ _ => method = "GET"
  | requests_post _ _ => False
  end.

(** [descendant n d]: the node [d] lies below the node [n] in the
    document. *)
Inductive descendant : Node -> Node -> Prop :=
| desc_child tg ch c : In c ch -> descendant (Element tg ch) c
| desc_below tg ch c d :
    In c ch -> descendant c d -> descendant (Element tg ch) d.

(** The answer [sesame_m31] with a second Resolver entry after the first,
    and an answer whose only position lacks the declination. *)
Definition sesame_m31_two_resolvers : XElem :=
  XE "Sesame" None
    [XE "Target" None
       [XE "name" (Some "M31") [];
        XE "Resolver" None
          [XE "jradeg" (Some "10.68") []; XE "jdedeg" (Some "41.27") []];
        XE "Resolver" None
          [XE "jradeg" (Some "0.0") []; XE "jdedeg" (Some "0.0") []]]].

Definition sesame_no_declination : XElem :=
  XE "Sesame" None
    [XE "Target" None
       [XE "Resolver" None [XE "jradeg" (Some "10.68") []]]].

(** The first Resolver entry of each Target of a response, if any. *)
Definition first_resolvers (tree : XElem) : list (option XElem) :=
  map (fun t => head (xchild "Resolver" t)) (xchild "Target" tree).

(** ** class QueryStr (tap.py, lines 299-326) *)

(** The values passed as keyword arguments, with Python's truth value and
    [str]. *)
Inductive pyval : Type :=
| PBool (b : bool)
| PInt (z : Z)
| PStr (s : string).

Definition truthy (v : pyval) : bool :=
  match v with
  | PBool b => b
  | PInt z => negb (z =? 0)
  | PStr s => negb (String.eqb s "")
  end.

Definition py_str (v : pyval) : string :=
  match v with
  | PBool true => "True"
  | PBool false => "False"
  | PInt z => pretty z
  | PStr s => s
  end.

(** A Python [dict] with string keys: the items in insertion order, every
    key once. *)
Definition pydict (V : Type) : Type := list (string * V).

Fixpoint dict_get {V} (k : string) (d : pydict V) : option V :=
  match d with
  | [] => None
  | (k', v) :: r => if String.eqb k' k then Some v else dict_get k r
  end.

(** [d[k] = v]: the value of a key that is there is replaced in place, a
    new key goes to the end. *)
Fixpoint dict_set {V} (k : string) (v : V) (d : pydict V) : pydict V :=
  match d with
  | [] => [(k, v)]
  | (k', v') :: r =>
      if String.eqb k' k then (k', v) :: r else (k', v') :: dict_set k v r
  end.

(** [d.update] with the items of [kw], in their order. *)
Definition dict_update {V} (d kw : pydict V) : pydict V :=
  fold_left (fun acc kv => dict_set (fst kv) (snd kv) acc) kw d.

Definition dict_remove {V} (k : string) (d : pydict V) : pydict V :=
  List.filter (fun kv => negb (String.eqb (fst kv) k)) d.

(** [d.pop(k, default)]: the value and the rest of the items. *)
Definition dict_pop {V} (k : string) (default : V) (d : pydict V)
  : V * pydict V :=
  (match dict_get k d with Some v => v | None => default end,
   dict_remove k d).

(** The form that [requests] sends for a [dict] of scalars: each value
    through [str]. *)
Definition form_of (d : pydict pyval) : form :=
  map (fun kv => (fst kv, py_str (snd kv))) d.

(** What [json.loads] gives. *)
Inductive json : Type :=
| JNull
| JBool (b : bool)
| JNum (x : Q)
| JStr (s : string)
| JArr (items : list json)
| JObj (members : list (string * json)).

(** [value['result']]-style subscription by a string: on an object the
    member of that name, the last one when the name is repeated, or
    [KeyError]; on anything else [TypeError]. *)
Definition json_getitem (j : json) (k : string) : outcome json :=
  match j with
  | JObj members =>
      match dict_get k (rev members) with
      | Some v => Ok v
      | None => Raise (UserError "KeyError")
      end
  | _ => Raise TypeError
  end.

(** [json.loads]; [None] is a [JSONDecodeError], which is a
    [ValueError]. *)
Class JsonLib : Type := { json_loads : string -> option json }.

Module QueryStr.
Section Methods.
Context `{Env} `{JsonLib}.

Record t : Type := {
  text : json;
  _parser : string;
  _pars : pydict pyval
}.

Definition set_text (v : json) (q : t) : t :=
  {| text := v; _parser := _parser q; _pars := _pars q |}.
Definition set_pars (d : pydict pyval) (q : t) : t :=
  {| text := text q; _parser := _parser q; _pars := d |}.

Definition parse_sql (kwargs : pydict pyval) : M (t * World) unit :=
  self <- self_get id ;;
  let pars := dict_update (_pars self) kwargs in
  self_set (set_pars pars) ;;;
  res <- liftW (http (requests_post (_parser self) (form_of pars))) ;;
  match json_loads (resp_body res) with
  | None => raise ValueError
  | Some j =>
      match json_getitem j "result" with
      | Raise e => raise e
      | Ok v => self_set (set_text v)
      end
  end.

(** What the object shows when displayed: its text, when that is a
    string. *)
Definition shown_text (q : t) : string :=
  match text q with
  | JStr s => s
  | _ => ""
  end.

(** The constructor with its keyword arguments: the new object, or the
    exception of
    [parse_sql].  Whatever [display] raises is caught; what it did to
    the world before raising stays. *)
Definition __init__ (adql : string) (kwargs : pydict pyval)
  : M World t :=
  fun w =>
    let '(verbose, kwargs) := dict_pop "verbose" (PBool true) kwargs in
    let self :=
      {| text := JStr adql;
         _parser := "https://sqlformat.org/api/v1/format";
         _pars := [("sql", PStr adql); ("reindent", PInt 0);
                   ("keyword_case", PStr "upper")] |} in
    match parse_sql kwargs (self, w) with
    | (Raise e, (_, w1)) => (Raise e, w1)
    | (Ok _, (self, w1)) =>
        if truthy verbose then
          match call_display (shown_text self) w1 with
          | (_, w2) => (Ok self, w2)
          end
        else (Ok self, w1)
    end.

(** The options held by a new object made with the keyword arguments
    [kwargs], and the request that its construction sends. *)
Definition init_pars (adql : string) (kwargs : pydict pyval)
  : pydict pyval :=
  dict_update
    [("sql", PStr adql); ("reindent", PInt 0); ("keyword_case", PStr "upper")]
    (dict_remove "verbose" kwargs).

Definition format_request (pars : pydict pyval) : Request :=
  requests_post "https://sqlformat.org/api/v1/format" (form_of pars).

(** [__str__]: a text that is no string is a [TypeError]. *)
Definition __str__ (q : t) : outcome string :=
  match text q with
  | JStr s => Ok s
  | _ => Raise TypeError
  end.
End Methods.
End QueryStr.

(** A JSON reader for the mock environment: every body that is not empty
    reads as an object whose result is the body. *)
Definition mock_json : JsonLib :=
  {| json_loads := fun body =>
       if String.eqb body "" then None
       else Some (JObj [("result", JStr body)]) |}.

(** * Properties *)

(** ** The real-number helpers *)

Lemma Qlt_bool_iff (a b : Q) : Qlt_bool a b = true <-> (a < b)%Q.
Proof.
  unfold Qlt_bool. rewrite negb_true_iff. split.
  - intros Hf. apply Qnot_le_lt. intros Hle.
    apply Qle_bool_iff in Hle. congruence.
  - intros Hlt. destruct (Qle_bool b a) eqn:E; [|reflexivity].
    apply Qle_bool_iff in E. exfalso. exact (Qlt_not_le _ _ Hlt E).
Qed.


Lemma one_lt_ten : (1 < ten)%Q.
Proof. reflexivity. Qed.










(** ** The asynchronous job *)

Lemma string_length_append (a b : string) :
  String.length (a ++ b) = (String.length a + String.length b)%nat.
Proof.
  induction a as [|c a IH]; [reflexivity|].
  change (String c a ++ b) with (String c (a ++ b)).
  cbn [String.length Nat.add]. f_equal. exact IH.
Qed.

Section AsyncJob.
Context `{Env}.
Import TAP_AsyncQuery.

Lemma same_job_refl q : same_job q q.
Proof. repeat split. Qed.

Lemma same_job_trans q1 q2 q3 :
  same_job q1 q2 -> same_job q2 q3 -> same_job q1 q3.
Proof. unfold same_job. intuition congruence. Qed.

Lemma same_job_status_request q q' id :
  same_job q q' -> status_request q' id = status_request q id.
Proof.
  intros (Hh & Hp & Hpa & _). unfold status_request. now rewrite Hh, Hp, Hpa.
Qed.

Lemma same_job_poll q q' id n : same_job q q' -> poll q' id n = poll q id n.
Proof.
  intros Hs. unfold poll. now rewrite (same_job_status_request _ _ _ Hs).
Qed.

Lemma status_unfold q w id :
  jobid q = Some id ->
  status (q, w) =
    match server (length (sent w)) (status_request q id) with
    | None => (Raise OSError, (q, log_request (status_request q id) w))
    | Some r =>
        (phase_of_body (resp_body r),
         (set_response r q, log_request (status_request q id) w))
    end.
Proof.
  intros Hid. unfold status, bind, self_get, gets, liftW, http. cbn.
  rewrite Hid. cbn.
  destruct (server (length (sent w)) (status_request q id)) as [r|]; cbn;
    [|reflexivity].
  destruct (phase_of_body (resp_body r)); reflexivity.
Qed.

(** [finished] is [status] compared with the text COMPLETED. *)
Lemma finished_unfold (s : t * World) :
  finished s =
    match status s with
    | (Ok phase, s') => (Ok (String.eqb phase "COMPLETED"), s')
    | (Raise e, s') => (Raise e, s')
    end.
Proof. unfold finished, bind, ret. destruct (status s) as [[p|e] s']; reflexivity. Qed.

(** A status poll that reads a phase: the outcome and the state after. *)
Lemma finished_poll q w id ph :
  jobid q = Some id ->
  poll q id (length (sent w)) = Ok ph ->
  exists q', same_job q q'
    /\ finished (q, w)
       = (Ok (String.eqb ph "COMPLETED"),
          (q', log_request (status_request q id) w)).
Proof.
  intros Hid Hp. rewrite finished_unfold, (status_unfold _ _ _ Hid).
  unfold poll in Hp.
  destruct (server (length (sent w)) (status_request q id)) as [r|];
    [|discriminate].
  rewrite Hp. exists (set_response r q). split; [repeat split | reflexivity].
Qed.

(** A status poll that fails raises, whatever the loop was doing. *)
Lemma finished_poll_raise q w id e :
  jobid q = Some id ->
  poll q id (length (sent w)) = Raise e ->
  exists s', finished (q, w) = (Raise e, s').
Proof.
  intros Hid Hp. rewrite finished_unfold, (status_unfold _ _ _ Hid).
  unfold poll in Hp.
  destruct (server (length (sent w)) (status_request q id)) as [r|].
  - rewrite Hp. eauto.
  - injection Hp as <-. eauto.
Qed.

Lemma time_sleep_ok (d : Q) (w : World) :
  (0 <= d)%Q -> time_sleep d w = (Ok tt, log_sleep d w).
Proof.
  intros Hd. unfold time_sleep.
  destruct (Qlt_bool d 0) eqn:E; [|reflexivity].
  apply Qlt_bool_iff in E. exfalso. exact (Qlt_not_le _ _ E Hd).
Qed.

(** One turn of the waiting loop on a phase other than COMPLETED. *)
Lemma wait_loop_step q w id ph sleep :
  jobid q = Some id -> (0 <= sleep)%Q ->
  poll q id (length (sent w)) = Ok ph -> ph <> "COMPLETED" ->
  exists q', same_job q q'
    /\ forall fuel,
         wait_loop (S fuel) sleep true (q, w)
         = wait_loop fuel sleep true
             (q', log_sleep sleep (log_request (status_request q id) w)).
Proof.
  intros Hid Hs Hp Hne.
  destruct (finished_poll q w id ph Hid Hp) as (q' & Hsame & Hf).
  exists q'. split; [exact Hsame|]. intros fuel.
  cbn [wait_loop]. rewrite Hf.
  assert (E : String.eqb ph "COMPLETED" = false)
    by (apply String.eqb_neq; exact Hne).
  rewrite E. cbn [negb andb].
  unfold liftW. cbn [fst snd]. rewrite time_sleep_ok by exact Hs.
  reflexivity.
Qed.

(** The turn that reads COMPLETED leaves the loop without sleeping. *)
Lemma wait_loop_last q w id sleep wait :
  jobid q = Some id ->
  poll q id (length (sent w)) = Ok "COMPLETED" ->
  exists q', same_job q q'
    /\ forall fuel,
         wait_loop (S fuel) sleep wait (q, w)
         = Some (Ok tt, (q', log_request (status_request q id) w)).
Proof.
  intros Hid Hp.
  destruct (finished_poll q w id _ Hid Hp) as (q' & Hsame & Hf).
  exists q'. split; [exact Hsame|]. intros fuel.
  cbn [wait_loop]. rewrite Hf. reflexivity.
Qed.

Lemma after_turns_sent rq sleep n w :
  sent (after_turns rq sleep n w) = (sent w ++ repeat rq n)%list.
Proof.
  revert w. induction n as [|n IH]; intros w; cbn [after_turns repeat].
  - now rewrite app_nil_r.
  - rewrite IH. cbn. now rewrite <- app_assoc.
Qed.

Lemma after_turns_slept rq sleep n w :
  slept (after_turns rq sleep n w) = (slept w ++ repeat sleep n)%list.
Proof.
  revert w. induction n as [|n IH]; intros w; cbn [after_turns repeat].
  - now rewrite app_nil_r.
  - rewrite IH. cbn. now rewrite <- app_assoc.
Qed.

Lemma after_turns_length rq sleep n w :
  length (sent (after_turns rq sleep n w)) = (length (sent w) + n)%nat.
Proof. rewrite after_turns_sent, length_app, repeat_length. reflexivity. Qed.

(** While the polls read phases other than COMPLETED the loop keeps
    turning: [n] such polls cost [n] units of fuel. *)
Lemma wait_loop_turns id sleep (n : nat) :
  forall q w,
    jobid q = Some id -> (0 <= sleep)%Q ->
    (forall i, (i < n)%nat ->
       exists ph, poll q id (length (sent w) + i) = Ok ph
                  /\ ph <> "COMPLETED") ->
    exists q', same_job q q'
      /\ forall fuel,
           wait_loop (n + fuel) sleep true (q, w)
           = wait_loop fuel sleep true
               (q', after_turns (status_request q id) sleep n w).
Proof.
  induction n as [|n IH]; intros q w Hid Hs Hp.
  - exists q. split; [apply same_job_refl | reflexivity].
  - destruct (Hp 0%nat ltac:(lia)) as (ph & Hph & Hne).
    rewrite Nat.add_0_r in Hph.
    destruct (wait_loop_step q w id ph sleep Hid Hs Hph Hne)
      as (q1 & Hsame & Hstep).
    destruct (IH q1 (log_sleep sleep (log_request (status_request q id) w)))
      as (q2 & Hsame2 & Hrun).
    + destruct Hsame as (_ & _ & _ & Hj & _). congruence.
    + exact Hs.
    + intros i Hi. destruct (Hp (S i) ltac:(lia)) as (ph' & Hph' & Hne').
      exists ph'. split; [|exact Hne'].
      rewrite (same_job_poll _ _ _ _ Hsame). cbn [sent log_sleep log_request].
      rewrite length_app. cbn [length].
      now replace (length (sent w) + 1 + i)%nat
        with (length (sent w) + S i)%nat by lia.
    + exists q2. split; [eapply same_job_trans; eassumption|].
      intros fuel. cbn [Nat.add after_turns].
      rewrite Hstep, Hrun.
      now rewrite (same_job_status_request _ _ _ Hsame).
Qed.

(** If no poll ever reads COMPLETED, no amount of fuel ends the loop. *)
Lemma wait_loop_forever id sleep q w :
  jobid q = Some id -> (0 <= sleep)%Q ->
  (forall i, exists ph, poll q id (length (sent w) + i) = Ok ph
                        /\ ph <> "COMPLETED") ->
  forall fuel, wait_loop fuel sleep true (q, w) = None.
Proof.
  intros Hid Hs Hp fuel.
  destruct (wait_loop_turns id sleep fuel q w Hid Hs) as (q' & _ & Hrun).
  - intros i _. apply Hp.
  - specialize (Hrun 0%nat). rewrite Nat.add_0_r in Hrun.
    rewrite Hrun. reflexivity.
Qed.

(** The loop ends at the first poll that reads COMPLETED. *)
Lemma wait_loop_exit id sleep (n : nat) q w :
  jobid q = Some id -> (0 <= sleep)%Q ->
  (forall i, (i < n)%nat ->
     exists ph, poll q id (length (sent w) + i) = Ok ph
                /\ ph <> "COMPLETED") ->
  poll q id (length (sent w) + n) = Ok "COMPLETED" ->
  exists q', same_job q q'
    /\ forall fuel,
         wait_loop (n + S fuel) sleep true (q, w)
         = Some (Ok tt,
                 (q', log_request (status_request q id)
                        (after_turns (status_request q id) sleep n w))).
Proof.
  intros Hid Hs Hp Hn.
  destruct (wait_loop_turns id sleep n q w Hid Hs Hp) as (q1 & Hsame & Hrun).
  destruct (wait_loop_last q1 (after_turns (status_request q id) sleep n w)
              id sleep true) as (q2 & Hsame2 & Hlast).
  - destruct Hsame as (_ & _ & _ & Hj & _). congruence.
  - rewrite (same_job_poll _ _ _ _ Hsame), after_turns_length. exact Hn.
  - exists q2. split; [eapply same_job_trans; eassumption|].
    intros fuel. rewrite Hrun, Hlast.
    now rewrite (same_job_status_request _ _ _ Hsame).
Qed.

(** A normal exit of the loop comes from a poll that read COMPLETED, all
    polls before it having read another phase. *)
Lemma wait_loop_exit_inv id sleep wait (fuel : nat) :
  forall q w s',
    jobid q = Some id ->
    wait_loop fuel sleep wait (q, w) = Some (Ok tt, s') ->
    wait = true ->
    exists n, (n < fuel)%nat
      /\ poll q id (length (sent w) + n) = Ok "COMPLETED"
      /\ forall i, (i < n)%nat ->
           exists ph, poll q id (length (sent w) + i) = Ok ph
                      /\ ph <> "COMPLETED".
Proof.
  induction fuel as [|fuel IH]; intros q w s' Hid Hrun ->; [discriminate|].
  cbn [wait_loop] in Hrun.
  rewrite finished_unfold, (status_unfold _ _ _ Hid) in Hrun.
  destruct (server (length (sent w)) (status_request q id)) as [r|] eqn:Es;
    [|discriminate].
  destruct (phase_of_body (resp_body r)) as [ph|e] eqn:Eph; [|discriminate].
  assert (Hp0 : poll q id (length (sent w)) = Ok ph)
    by (unfold poll; now rewrite Es).
  destruct (String.eqb ph "COMPLETED") eqn:E; cbn [negb andb] in Hrun.
  - apply String.eqb_eq in E. subst ph. exists 0%nat.
    rewrite Nat.add_0_r. split; [lia|]. split; [exact Hp0|]. intros i Hi. lia.
  - apply String.eqb_neq in E.
    unfold liftW, time_sleep in Hrun. cbn [fst snd] in Hrun.
    destruct (Qlt_bool sleep 0); cbn in Hrun; [discriminate|].
    apply IH in Hrun; [|exact Hid|reflexivity].
    destruct Hrun as (n & Hn & Hc & Hb).
    cbn [sent log_sleep log_request] in Hc, Hb.
    rewrite length_app in Hc, Hb. cbn [length] in Hc, Hb.
    assert (Hsame : same_job q (set_response r q)) by (repeat split).
    exists (S n). split; [lia|]. split.
    + rewrite <- (same_job_poll _ _ _ _ Hsame).
      now replace (length (sent w) + S n)%nat
        with (length (sent w) + 1 + n)%nat by lia.
    + intros [|i] Hi.
      * rewrite Nat.add_0_r. eauto.
      * destruct (Hb i ltac:(lia)) as (ph' & Hph' & Hne').
        exists ph'. split; [|exact Hne'].
        rewrite <- (same_job_poll _ _ _ _ Hsame).
        now replace (length (sent w) + S i)%nat
          with (length (sent w) + 1 + i)%nat by lia.
Qed.

(** Among polls that all read a phase, the first one reading COMPLETED. *)
Lemma first_completed (n : nat) :
  forall p : nat -> outcome string,
    p n = Ok "COMPLETED" ->
    (forall i, (i < n)%nat -> exists ph, p i = Ok ph) ->
    exists m, (m <= n)%nat /\ p m = Ok "COMPLETED"
      /\ forall i, (i < m)%nat -> exists ph, p i = Ok ph /\ ph <> "COMPLETED".
Proof.
  induction n as [|n IH]; intros p Hn Hb.
  - exists 0%nat. split; [lia|]. split; [exact Hn|]. intros i Hi. lia.
  - destruct (Hb 0%nat ltac:(lia)) as (ph0 & Hp0).
    destruct (string_dec ph0 "COMPLETED") as [-> | Hne].
    + exists 0%nat. split; [lia|]. split; [exact Hp0|]. intros i Hi. lia.
    + destruct (IH (fun i => p (S i)) Hn) as (m & Hm & Hc & Hlt).
      * intros i Hi. apply Hb. lia.
      * exists (S m). split; [lia|]. split; [exact Hc|].
        intros [|i] Hi; [eauto | apply Hlt; lia].
Qed.

(** After the loop, a poll reading another phase makes [get] return
    nothing: the only request sent is the status request. *)
Lemma get_after_wait_not_finished q w id ph :
  jobid q = Some id ->
  poll q id (length (sent w)) = Ok ph -> ph <> "COMPLETED" ->
  exists q', same_job q q'
    /\ get_after_wait (q, w)
       = (Ok None, (q', log_request (status_request q id) w)).
Proof.
  intros Hid Hp Hne.
  destruct (finished_poll q w id ph Hid Hp) as (q' & Hsame & Hf).
  exists q'. split; [exact Hsame|].
  unfold get_after_wait, bind. rewrite Hf.
  apply String.eqb_neq in Hne. rewrite Hne. reflexivity.
Qed.

Lemma fetch_result_unfold q w id :
  jobid q = Some id ->
  fetch_result (q, w) =
    match server (length (sent w)) (result_request q id) with
    | None => (Raise OSError, (q, log_request (result_request q id) w))
    | Some r =>
        (match Table_read (resp_body r) with
         | Some table => Ok (Some table)
         | None => Raise VOTableError
         end,
         (set_data (resp_body r) (set_response r q),
          log_request (result_request q id) w))
    end.
Proof.
  intros Hid. unfold fetch_result, bind, self_get, gets, liftW, http. cbn.
  rewrite Hid. cbn.
  destruct (server (length (sent w)) (result_request q id)) as [r|]; cbn;
    [|reflexivity].
  destruct (Table_read (resp_body r)); reflexivity.
Qed.

(** After the loop, a poll reading COMPLETED makes [get] request the
    result resource and parse its body. *)
Lemma get_after_wait_completed q w id :
  jobid q = Some id ->
  poll q id (length (sent w)) = Ok "COMPLETED" ->
  exists r s',
    get_after_wait (q, w) = (r, s')
    /\ sent (snd s')
       = (sent w ++ [status_request q id; result_request q id])%list
    /\ slept (snd s') = slept w
    /\ forall resp,
         server (S (length (sent w))) (result_request q id) = Some resp ->
         r = match Table_read (resp_body resp) with
             | Some table => Ok (Some table)
             | None => Raise VOTableError
             end.
Proof.
  intros Hid Hp.
  destruct (finished_poll q w id _ Hid Hp) as (q' & Hsame & Hf).
  assert (Hid' : jobid q' = Some id)
    by (destruct Hsame as (_ & _ & _ & Hj & _); congruence).
  assert (Hrq : result_request q' id = result_request q id).
  { destruct Hsame as (Hh & Hpo & Hpa & _). unfold result_request.
    now rewrite Hh, Hpo, Hpa. }
  unfold get_after_wait, bind. rewrite Hf.
  change (String.eqb "COMPLETED" "COMPLETED") with true. cbn [negb].
  rewrite (fetch_result_unfold _ _ _ Hid'), Hrq.
  cbn [sent log_request]. rewrite length_app. cbn [length].
  replace (length (sent w) + 1)%nat with (S (length (sent w))) by lia.
  destruct (server (S (length (sent w))) (result_request q id)) as [resp|].
  - do 2 eexists. split; [reflexivity|]. cbn.
    rewrite <- app_assoc. repeat split.
    intros resp' [= <-]. reflexivity.
  - do 2 eexists. split; [reflexivity|]. cbn.
    rewrite <- app_assoc. repeat split. intros resp' [=].
Qed.

(** The status request and the result request of a job differ. *)
Lemma status_request_not_result q id :
  status_request q id <> result_request q id.
Proof.
  unfold status_request, result_request. intros [= Heq].
  apply (f_equal String.length) in Heq.
  rewrite !string_length_append in Heq. cbn in Heq. lia.
Qed.

(** Whatever the loop does, it only sends status requests and leaves the
    identity of the job alone. *)
Lemma wait_loop_trace id sleep wait (fuel : nat) :
  forall q w r q' w',
    jobid q = Some id ->
    wait_loop fuel sleep wait (q, w) = Some (r, (q', w')) ->
    same_job q q'
    /\ exists k, sent w' = (sent w ++ repeat (status_request q id) k)%list.
Proof.
  induction fuel as [|fuel IH]; intros q w r q' w' Hid Hrun; [discriminate|].
  cbn [wait_loop] in Hrun.
  rewrite finished_unfold, (status_unfold _ _ _ Hid) in Hrun.
  assert (Hone : forall rq, (sent w ++ [rq] = sent w ++ repeat rq 1)%list)
    by reflexivity.
  destruct (server (length (sent w)) (status_request q id)) as [resp|].
  2:{ injection Hrun as <- <- <-. split; [apply same_job_refl|].
      exists 1%nat. apply Hone. }
  assert (Hsame : same_job q (set_response resp q)) by (repeat split).
  destruct (phase_of_body (resp_body resp)) as [ph|e].
  2:{ injection Hrun as <- <- <-. split; [exact Hsame|].
      exists 1%nat. apply Hone. }
  destruct (negb (String.eqb ph "COMPLETED") && wait).
  2:{ injection Hrun as <- <- <-. split; [exact Hsame|].
      exists 1%nat. apply Hone. }
  unfold liftW, time_sleep in Hrun. cbn [fst snd] in Hrun.
  destruct (Qlt_bool sleep 0); cbn in Hrun.
  { injection Hrun as <- <- <-. split; [exact Hsame|].
    exists 1%nat. apply Hone. }
  apply IH in Hrun; [|exact Hid]. destruct Hrun as (Hs2 & k & Hk).
  split; [eapply same_job_trans; eassumption|].
  exists (S k). rewrite Hk. cbn [sent log_sleep log_request repeat].
  rewrite (same_job_status_request _ _ _ Hsame), <- app_assoc.
  reflexivity.
Qed.

(** C1.  For a job whose identifier is set: [finished] is the comparison
    of the phase read by [status] with the text COMPLETED; the waiting
    loop of [get(sleep, wait=True)] leaves normally if and only if some
    status poll it makes reads COMPLETED (every earlier poll having read
    a phase); it leaves at the first such poll, after one status request
    and one sleep of [sleep] seconds per earlier turn, and [get] then
    reads [finished] once more and, reading COMPLETED again, requests the
    result resource; and when every poll reads a phase other than
    COMPLETED, the loop is still running after any number of turns. *)
Theorem get_wait_terminates_iff_completed
    (q : t) (id : string) (w : World) (sleep : Q) :
  jobid q = Some id ->
  (0 <= sleep)%Q ->
  let p := fun i => poll q id (length (sent w) + i) in
  let rq := status_request q id in
  (forall s, finished s =
             match status s with
             | (Ok phase, s') => (Ok (String.eqb phase "COMPLETED"), s')
             | (Raise e, s') => (Raise e, s')
             end)
  /\ ((exists fuel s', wait_loop fuel sleep true (q, w) = Some (Ok tt, s'))
      <-> (exists n, p n = Ok "COMPLETED"
                     /\ forall i, (i < n)%nat -> exists ph, p i = Ok ph))
  /\ (forall n,
        p n = Ok "COMPLETED" ->
        (forall i, (i < n)%nat ->
           exists ph, p i = Ok ph /\ ph <> "COMPLETED") ->
        (exists q', same_job q q'
           /\ forall fuel,
                wait_loop (n + S fuel) sleep true (q, w)
                = Some (Ok tt,
                        (q', log_request rq (after_turns rq sleep n w))))
        /\ (p (S n) = Ok "COMPLETED" ->
            forall fuel, exists r s',
              get (n + S fuel) sleep true (q, w) = Some (r, s')
              /\ sent (snd s')
                 = (sent w ++ repeat rq n
                      ++ [rq; rq; result_request q id])%list
              /\ slept (snd s') = (slept w ++ repeat sleep n)%list))
  /\ ((forall i, exists ph, p i = Ok ph /\ ph <> "COMPLETED") ->
      forall n,
        wait_loop n sleep true (q, w) = None
        /\ get n sleep true (q, w) = None
        /\ exists q', same_job q q'
             /\ forall fuel,
                  wait_loop (n + fuel) sleep true (q, w)
                  = wait_loop fuel sleep true
                      (q', after_turns rq sleep n w)).
Proof.
  intros Hid Hs p rq. subst p rq.
  split; [exact finished_unfold|]. split; [|split].
  - split.
    + intros (fuel & s' & Hrun).
      destruct (wait_loop_exit_inv id sleep true fuel q w s' Hid Hrun eq_refl)
        as (n & _ & Hc & Hb).
      exists n. split; [exact Hc|]. intros i Hi.
      destruct (Hb i Hi) as (ph & Hph & _). eauto.
    + intros (n & Hc & Hb).
      destruct (first_completed n _ Hc Hb) as (m & _ & Hmc & Hmb).
      destruct (wait_loop_exit id sleep m q w Hid Hs Hmb Hmc)
        as (q' & _ & Hrun).
      exists (m + 1)%nat. eexists. apply (Hrun 0%nat).
  - intros n Hc Hb.
    destruct (wait_loop_exit id sleep n q w Hid Hs Hb Hc)
      as (q' & Hsame & Hrun).
    split; [exists q'; split; assumption|].
    intros Hnext fuel. unfold get. rewrite Hrun.
    destruct (get_after_wait_completed q'
                (log_request (status_request q id)
                   (after_turns (status_request q id) sleep n w)) id)
      as (r & s' & Hget & Hsent & Hslept & _).
    + destruct Hsame as (_ & _ & _ & Hj & _). congruence.
    + rewrite (same_job_poll _ _ _ _ Hsame).
      cbn [sent log_request]. rewrite length_app, after_turns_length.
      cbn [length].
      now replace (length (sent w) + n + 1)%nat
        with (length (sent w) + S n)%nat by lia.
    + exists r, s'. split; [now rewrite Hget|]. split.
      * rewrite Hsent. cbn [sent log_request].
        rewrite after_turns_sent.
        assert (Hsr : status_request q' id = status_request q id)
          by (apply same_job_status_request; exact Hsame).
        assert (Hrr : result_request q' id = result_request q id).
        { destruct Hsame as (Hh & Hpo & Hpa & _). unfold result_request.
          now rewrite Hh, Hpo, Hpa. }
        rewrite Hsr, Hrr, <- !app_assoc. reflexivity.
      * rewrite Hslept. cbn [slept log_request]. apply after_turns_slept.
  - intros Hp n.
    pose proof (wait_loop_forever id sleep q w Hid Hs Hp n) as Hnone.
    split; [exact Hnone|]. split; [unfold get; now rewrite Hnone|].
    apply (wait_loop_turns id sleep n q w Hid Hs). intros i _. apply Hp.
Qed.

(** C3.  When the [finished] read after the waiting loop (run or skipped)
    sees a phase other than COMPLETED, [get] returns nothing and raises
    nothing, and every request it has sent is the status request, which
    is not the request for the result resource; in particular
    [get(wait=False)] polls the status twice, never sleeps, and returns
    nothing when the second poll reads a phase other than COMPLETED. *)
Theorem get_not_finished_returns_nothing
    (q : t) (id : string) (w : World) (sleep : Q) :
  jobid q = Some id ->
  status_request q id <> result_request q id
  /\ (forall wait fuel q1 w1 ph,
        wait_loop fuel sleep wait (q, w) = Some (Ok tt, (q1, w1)) ->
        poll q id (length (sent w1)) = Ok ph -> ph <> "COMPLETED" ->
        exists q2 k,
          get fuel sleep wait (q, w)
          = Some (Ok None, (q2, log_request (status_request q id) w1))
          /\ sent (log_request (status_request q id) w1)
             = (sent w ++ repeat (status_request q id) k)%list)
  /\ (forall ph0 ph1,
        poll q id (length (sent w)) = Ok ph0 ->
        poll q id (S (length (sent w))) = Ok ph1 -> ph1 <> "COMPLETED" ->
        forall fuel, exists q2 w2,
          get (S fuel) sleep false (q, w) = Some (Ok None, (q2, w2))
          /\ sent w2
             = (sent w ++ [status_request q id; status_request q id])%list
          /\ slept w2 = slept w).
Proof.
  intros Hid. split; [apply status_request_not_result|]. split.
  - intros wait fuel q1 w1 ph Hrun Hp Hne.
    destruct (wait_loop_trace id sleep wait fuel q w _ q1 w1 Hid Hrun)
      as (Hsame & k & Hk).
    destruct (get_after_wait_not_finished q1 w1 id ph)
      as (q2 & _ & Hget).
    + destruct Hsame as (_ & _ & _ & Hj & _). congruence.
    + now rewrite (same_job_poll _ _ _ _ Hsame).
    + exact Hne.
    + rewrite (same_job_status_request _ _ _ Hsame) in Hget.
      exists q2, (S k). split; [unfold get; now rewrite Hrun, Hget|].
      cbn [sent log_request repeat]. rewrite Hk, <- app_assoc.
      now rewrite <- repeat_cons.
  - intros ph0 ph1 Hp0 Hp1 Hne fuel.
    destruct (finished_poll q w id ph0 Hid Hp0) as (q1 & Hsame & Hf).
    destruct (get_after_wait_not_finished q1
                (log_request (status_request q id) w) id ph1)
      as (q2 & _ & Hget).
    + destruct Hsame as (_ & _ & _ & Hj & _). congruence.
    + rewrite (same_job_poll _ _ _ _ Hsame). cbn [sent log_request].
      rewrite length_app. cbn [length].
      now replace (length (sent w) + 1)%nat with (S (length (sent w)))
        by lia.
    + exact Hne.
    + rewrite (same_job_status_request _ _ _ Hsame) in Hget.
      exists q2, (log_request (status_request q id)
                    (log_request (status_request q id) w)).
      split; [|split; [|reflexivity]].
      * unfold get. cbn [wait_loop]. rewrite Hf, andb_false_r.
        now rewrite Hget.
      * cbn [sent log_request]. now rewrite <- app_assoc.
Qed.
End AsyncJob.

(** ** Job identity: [submit] and the operations before it *)

Lemma rfind_from_absent (c : ascii) (s : string) :
  forall i, has_char c s = false -> rfind_from c s i = -1.
Proof.
  induction s as [|a r IH]; intros i Hc; [reflexivity|].
  cbn [has_char] in Hc. apply orb_false_iff in Hc as [Ha Hr].
  cbn [rfind_from]. rewrite (IH _ Hr), Ha. reflexivity.
Qed.

Lemma rfind_from_last (c : ascii) (pre suf : string) :
  forall i, 0 <= i -> has_char c suf = false ->
    rfind_from c (pre ++ String c suf) i = i + Z.of_nat (String.length pre).
Proof.
  induction pre as [|a pre IH]; intros i Hi Hs.
  - change ("" ++ String c suf) with (String c suf). cbn [rfind_from].
    rewrite (rfind_from_absent _ _ _ Hs), Ascii.eqb_refl. cbn. lia.
  - change (String a pre ++ String c suf) with (String a (pre ++ String c suf)).
    cbn [rfind_from]. rewrite IH by (lia || exact Hs).
    destruct (0 <=? i + 1 + Z.of_nat (String.length pre)) eqn:E.
    + cbn [String.length]. lia.
    + apply Z.leb_gt in E. lia.
Qed.

Lemma drop_chars_app (pre suf : string) :
  drop_chars (String.length pre) (pre ++ suf) = suf.
Proof.
  induction pre as [|a pre IH]; [now destruct suf|].
  change (String a pre ++ suf) with (String a (pre ++ suf)). exact IH.
Qed.

(** The identifier is what follows the last slash of the location. *)
Lemma jobid_of_location_after_slash (pre suf : string) :
  has_char "/" suf = false ->
  TAP_AsyncQuery.jobid_of_location (pre ++ "/" ++ suf) = suf.
Proof.
  intros Hs. unfold TAP_AsyncQuery.jobid_of_location, rfind.
  change ("/" ++ suf) with (String "/" suf).
  rewrite (rfind_from_last _ _ _ 0 ltac:(lia) Hs).
  unfold slice_from.
  destruct (0 <=? 0 + Z.of_nat (String.length pre) + 1) eqn:E;
    [|apply Z.leb_gt in E; lia].
  replace (Z.to_nat (0 + Z.of_nat (String.length pre) + 1))
    with (String.length (pre ++ "/")).
  - replace (pre ++ String "/" suf) with ((pre ++ "/") ++ suf).
    + apply drop_chars_app.
    + clear. induction pre as [|a pre IH]; [reflexivity|].
      change (String a pre ++ "/") with (String a (pre ++ "/")).
      change (String a (pre ++ "/") ++ suf)
        with (String a ((pre ++ "/") ++ suf)).
      change (String a pre ++ String "/" suf)
        with (String a (pre ++ String "/" suf)).
      now rewrite IH.
  - rewrite string_length_append. cbn [String.length]. lia.
Qed.

(** Without a slash the identifier is the whole location. *)
Lemma jobid_of_location_no_slash (loc : string) :
  has_char "/" loc = false -> TAP_AsyncQuery.jobid_of_location loc = loc.
Proof.
  intros Hs. unfold TAP_AsyncQuery.jobid_of_location, rfind.
  rewrite (rfind_from_absent _ _ _ Hs). reflexivity.
Qed.

Section Submit.
Context `{Env}.
Import TAP_AsyncQuery.

(** The three ways [submit] can go. *)
Lemma submit_unfold silent q w :
  submit silent (q, w) =
    let rq := submit_request q in
    match server (length (sent w)) rq with
    | None => (Raise OSError, (q, log_request rq w))
    | Some r =>
        match getheader r "location" with
        | None =>
            (Raise AttributeError,
             (set_location None (set_response r q), log_request rq w))
        | Some loc =>
            let j := jobid_of_location loc in
            (Ok tt,
             (set_jobid j (set_location (Some loc) (set_response r q)),
              if silent then log_request rq w
              else
                log_print ("Job id: " ++ j)
                  (log_print ("Location: " ++ loc)
                     (log_print
                        ("Query Status: " ++ pretty (resp_status r) ++ " "
                         ++ "Reason: " ++ resp_reason r)
                        (log_request rq w)))))
        end
    end.
Proof.
  unfold submit, bind, self_get, gets, liftW, http. cbn.
  destruct (server (length (sent w)) (submit_request q)) as [r|]; cbn;
    [|reflexivity].
  destruct (getheader r "location") as [loc|]; cbn; [|reflexivity].
  destruct silent; reflexivity.
Qed.

(** Without an identifier, [status] raises before any request is sent. *)
Lemma status_without_jobid q w :
  jobid q = None -> status (q, w) = (Raise TypeError, (q, w)).
Proof.
  intros Hid. unfold status, bind, self_get, gets. cbn. now rewrite Hid.
Qed.

Lemma finished_without_jobid q w :
  jobid q = None -> finished (q, w) = (Raise TypeError, (q, w)).
Proof.
  intros Hid. unfold finished, bind. now rewrite status_without_jobid.
Qed.

Lemma get_without_jobid q w fuel sleep wait :
  jobid q = None ->
  get (S fuel) sleep wait (q, w) = Some (Raise TypeError, (q, w)).
Proof.
  intros Hid. unfold get. cbn [wait_loop].
  now rewrite finished_without_jobid.
Qed.

(** No call that is not a returning [submit] sets the location or the
    identifier. *)
Lemma unsubmitted_null (s : t * World) :
  unsubmitted s -> location (fst s) = None /\ jobid (fst s) = None.
Proof.
  induction 1 as [adql_query h p po w
                 | q w w' _ IH
                 | [q w] silent e s' _ IH Hrun
                 | [q w] r s' _ IH Hrun
                 | [q w] r s' _ IH Hrun
                 | [q w] fuel sleep wait r s' _ IH Hrun].
  - split; reflexivity.
  - exact IH.
  - destruct IH as [Hl Hj]. cbn [fst] in Hl, Hj.
    rewrite submit_unfold in Hrun. cbv zeta in Hrun.
    destruct (server (length (sent w)) (submit_request q)) as [resp|].
    + destruct (getheader resp "location"); [discriminate|].
      injection Hrun as _ <-. cbn. split; [reflexivity | exact Hj].
    + injection Hrun as _ <-. split; assumption.
  - destruct IH as [Hl Hj]. cbn [fst] in Hl, Hj.
    rewrite (status_without_jobid _ _ Hj) in Hrun.
    injection Hrun as _ <-. split; assumption.
  - destruct IH as [Hl Hj]. cbn [fst] in Hl, Hj.
    rewrite (finished_without_jobid _ _ Hj) in Hrun.
    injection Hrun as _ <-. split; assumption.
  - destruct IH as [Hl Hj]. cbn [fst] in Hl, Hj.
    destruct fuel as [|fuel]; [discriminate|].
    rewrite (get_without_jobid _ _ _ _ _ Hj) in Hrun.
    injection Hrun as _ <-. split; assumption.
Qed.

(** C6.  A new job has no location and no identifier, and keeps none
    through any calls made while no [submit] has returned; a [submit]
    that returns has stored the response's location header as the
    location and what follows its last slash as the identifier, and
    [submit] does return whenever the server answers with a location
    header; in every state reached while no [submit] has returned,
    [status], [finished] and [get] raise on the null identifier before
    any request is sent. *)
Theorem jobid_location_lifecycle :
  (forall adql_query h p po,
      location (__init__ adql_query h p po) = None
      /\ jobid (__init__ adql_query h p po) = None)
  /\ (forall s, unsubmitted s ->
        location (fst s) = None /\ jobid (fst s) = None)
  /\ (forall silent q w q' w',
        submit silent (q, w) = (Ok tt, (q', w')) ->
        exists r loc,
          server (length (sent w)) (submit_request q) = Some r
          /\ getheader r "location" = Some loc
          /\ location q' = Some loc
          /\ jobid q' = Some (jobid_of_location loc)
          /\ (forall pre suf,
                loc = pre ++ "/" ++ suf -> has_char "/" suf = false ->
                jobid q' = Some suf))
  /\ (forall silent q w r loc,
        server (length (sent w)) (submit_request q) = Some r ->
        getheader r "location" = Some loc ->
        exists q' w', submit silent (q, w) = (Ok tt, (q', w')))
  /\ (forall q w,
        unsubmitted (q, w) ->
        status (q, w) = (Raise TypeError, (q, w))
        /\ finished (q, w) = (Raise TypeError, (q, w))
        /\ forall fuel sleep wait,
             get (S fuel) sleep wait (q, w)
             = Some (Raise TypeError, (q, w))).
Proof.
  split; [intros; split; reflexivity|].
  split; [exact unsubmitted_null|].
  split; [|split].
  - intros silent q w q' w' Hrun. rewrite submit_unfold in Hrun.
    cbv zeta in Hrun.
    destruct (server (length (sent w)) (submit_request q)) as [r|];
      [|discriminate].
    destruct (getheader r "location") as [loc|] eqn:El; [|discriminate].
    injection Hrun as <- _. exists r, loc. cbn.
    split; [reflexivity|]. split; [exact El|].
    split; [reflexivity|]. split; [reflexivity|].
    intros pre suf -> Hs. now rewrite jobid_of_location_after_slash.
  - intros silent q w r loc Hr Hl. rewrite submit_unfold. cbv zeta.
    rewrite Hr, Hl. eauto.
  - intros q w Hun. apply unsubmitted_null in Hun as [_ Hid].
    cbn [fst] in Hid. split; [now apply status_without_jobid|].
    split; [now apply finished_without_jobid|].
    intros. now apply get_without_jobid.
Qed.
End Submit.

(** ** The service *)

Lemma string_app_assoc (a b c : string) : (a ++ b) ++ c = a ++ (b ++ c).
Proof.
  induction a as [|x a IH]; [reflexivity|].
  change ((String x a ++ b) ++ c) with (String x ((a ++ b) ++ c)).
  change (String x a ++ (b ++ c)) with (String x (a ++ (b ++ c))).
  now rewrite IH.
Qed.

Section Service.
Context `{Env}.
Import TAP_Service.

(** C8.  The endpoint of a service is the text http:// followed by the
    host and the path, whatever the port; the two presets give the two
    published addresses. *)
Theorem tap_endpoint_spec :
  (forall s : t, tap_endpoint s = "http://" ++ host s ++ path s)
  /\ (forall h p po po',
        tap_endpoint (__init__ h p po) = tap_endpoint (__init__ h p po'))
  /\ tap_endpoint TAPVizieR = "http://tapvizier.u-strasbg.fr/TAPVizieR/tap"
  /\ tap_endpoint GaiaArchive = "http://gea.esac.esa.int/tap-server/tap".
Proof. repeat split. Qed.

(** C4.  When the server answers the synchronous POST, it went to the
    endpoint followed by /sync with the query and the four fixed form
    fields; a body that parses as a VOTable is returned as the table and
    the service is left as it was; a body that does not parse raises
    nothing, is kept with its response on the service, and nothing is
    returned. *)
Theorem query_sync_spec (s : t) (adql_query : string) (w : World)
    (r : Response) :
  server (length (sent w)) (sync_request s adql_query) = Some r ->
  sync_request s adql_query
  = requests_post ("http://" ++ host s ++ path s ++ "/sync")
      [("query", adql_query); ("request", "doQuery"); ("lang", "adql");
       ("format", "votable"); ("phase", "run")]
  /\ (forall table,
        Table_read (resp_body r) = Some table ->
        query adql_query true (s, w)
        = (Ok (QTable table), (s, log_request (sync_request s adql_query) w)))
  /\ (Table_read (resp_body r) = None ->
      query adql_query true (s, w)
      = (Ok QNone,
         (set_response r s, log_request (sync_request s adql_query) w))
      /\ response (set_response r s) = Some r).
Proof.
  intros Hr. split; [|split].
  - unfold sync_request, tap_endpoint, query_form.
    now rewrite !string_app_assoc.
  - intros table Ht. unfold query, bind, self_get, gets, liftW, http. cbn.
    rewrite Hr. cbn. rewrite Ht. reflexivity.
  - intros Ht. split; [|reflexivity].
    unfold query, bind, self_get, gets, liftW, http. cbn.
    rewrite Hr. cbn. rewrite Ht. reflexivity.
Qed.

Lemma query_async_submit_unfold s adql_query kwargs w silent :
  bind_submit_kwargs kwargs = Ok silent ->
  query_async adql_query true kwargs (s, w) =
    match
      TAP_AsyncQuery.submit silent
        (TAP_AsyncQuery.__init__ adql_query (host s) (path s ++ "/async")
           (port s), w)
    with
    | (Ok _, (q', w')) => (Ok q', (s, w'))
    | (Raise e, (_, w')) => (Raise e, (s, w'))
    end.
Proof.
  intros Hk. unfold query_async, bind, self_get, gets. cbn.
  rewrite Hk. reflexivity.
Qed.

(** C7.  [query_async] builds a job with the host and port of the service
    and its path followed by /async, and leaves the service as it was.
    With [submit] false the new job is returned and no request is sent;
    with [submit] true the job is submitted with the given options first
    (one POST of the job's form), and it is returned, identifier set,
    when the server answers with a location header. *)
Theorem query_async_spec (s : t) (adql_query : string)
    (kwargs : gmap string bool) (w : World) :
  let fresh :=
    TAP_AsyncQuery.__init__ adql_query (host s) (path s ++ "/async")
      (port s) in
  query_async adql_query false kwargs (s, w) = (Ok fresh, (s, w))
  /\ (forall submit q st',
        query_async adql_query submit kwargs (s, w) = (Ok q, st') ->
        TAP_AsyncQuery.host q = host s
        /\ TAP_AsyncQuery.port q = port s
        /\ TAP_AsyncQuery.path q = path s ++ "/async"
        /\ TAP_AsyncQuery.adql q = adql_query
        /\ fst st' = s
        /\ (submit = true <->
            sent (snd st')
            = (sent w ++ [TAP_AsyncQuery.submit_request fresh])%list)
        /\ (submit = false <-> sent (snd st') = sent w))
  /\ (forall silent,
        bind_submit_kwargs kwargs = Ok silent ->
        query_async adql_query true kwargs (s, w) =
          match TAP_AsyncQuery.submit silent (fresh, w) with
          | (Ok _, (q', w')) => (Ok q', (s, w'))
          | (Raise e, (_, w')) => (Raise e, (s, w'))
          end)
  /\ (forall silent r loc,
        bind_submit_kwargs kwargs = Ok silent ->
        server (length (sent w)) (TAP_AsyncQuery.submit_request fresh)
        = Some r ->
        getheader r "location" = Some loc ->
        exists q w',
          query_async adql_query true kwargs (s, w) = (Ok q, (s, w'))
          /\ TAP_AsyncQuery.location q = Some loc
          /\ TAP_AsyncQuery.jobid q
             = Some (TAP_AsyncQuery.jobid_of_location loc)).
Proof.
  intros fresh. subst fresh.
  assert (Hneq : forall (l : list Request) rq, (l ++ [rq])%list <> l).
  { intros l rq Heq. apply (f_equal (@length _)) in Heq.
    rewrite length_app in Heq. cbn in Heq. lia. }
  split; [reflexivity|]. split; [|split].
  - intros [|] q st' Hrun.
    + destruct (bind_submit_kwargs kwargs) as [silent|e] eqn:Hk.
      2:{ unfold query_async, bind, self_get, gets in Hrun. cbn in Hrun.
          rewrite Hk in Hrun. discriminate. }
      rewrite (query_async_submit_unfold _ _ _ _ _ Hk) in Hrun.
      rewrite submit_unfold in Hrun. cbv zeta in Hrun.
      destruct (server _ _) as [r|]; [|discriminate].
      destruct (getheader r "location") as [loc|]; [|discriminate].
      injection Hrun as <- <-. cbn [fst snd].
      do 5 (split; [reflexivity|]).
      destruct silent; cbn [snd sent log_request log_print].
      all: split; split; intros Hx; try reflexivity; try discriminate.
      all: exfalso; exact (Hneq _ _ Hx).
    + injection Hrun as <- <-. cbn [fst snd].
      do 5 (split; [reflexivity|]).
      split; (split; [intros Hf|]).
      * discriminate.
      * intros Heq. exfalso. symmetry in Heq. exact (Hneq _ _ Heq).
      * reflexivity.
      * reflexivity.
  - intros silent Hk. now apply query_async_submit_unfold.
  - intros silent r loc Hk Hr Hl.
    rewrite (query_async_submit_unfold _ _ _ _ _ Hk).
    rewrite submit_unfold. cbv zeta. rewrite Hr, Hl.
    do 2 eexists. split; [reflexivity|]. split; reflexivity.
Qed.
End Service.

(** ** The name resolver *)

Lemma head_flat_map_take1 {A B : Type} (f : A -> list B) (l : list A) :
  head (flat_map (fun a => take 1 (f a)) l) = head (flat_map f l).
Proof.
  induction l as [|a l IH]; [reflexivity|].
  cbn [flat_map]. destruct (f a) as [|b bs]; [exact IH | reflexivity].
Qed.

Lemma head_nil_inv {A : Type} (l : list A) : head l = None -> l = [].
Proof. destruct l; [reflexivity | discriminate]. Qed.

Section ResolveFacts.
Context `{Env}.

(** No Resolver entry: the XPath query finds nothing. *)
Lemma xpath_no_resolver field tree :
  resolver_entries tree = [] -> xpath_resolver_field field tree = [].
Proof.
  unfold resolver_entries, xpath_resolver_field.
  destruct (String.eqb (xtag tree) "Sesame"); [|reflexivity].
  intros Hnil.
  assert (Hh : flat_map (xchild1 "Resolver") (xchild "Target" tree) = []).
  { apply head_nil_inv. unfold xchild1.
    rewrite (head_flat_map_take1 (xchild "Resolver")). now rewrite Hnil. }
  now rewrite Hh.
Qed.

(** The query starts with the fields of the first Resolver entry. *)
Lemma xpath_first_resolver field tree R more a :
  resolver_entries tree = R :: more ->
  head (xchild field R) = Some a ->
  head (xpath_resolver_field field tree) = Some a.
Proof.
  unfold resolver_entries, xpath_resolver_field.
  destruct (String.eqb (xtag tree) "Sesame"); [|discriminate].
  intros HR Ha.
  pose proof (head_flat_map_take1 (xchild "Resolver") (xchild "Target" tree))
    as Hh.
  rewrite HR in Hh. cbn [head] in Hh. fold (xchild1 "Resolver") in Hh.
  change (flat_map (λ a0, take 1 (xchild "Resolver" a0)))
    with (flat_map (xchild1 "Resolver")) in Hh.
  destruct (flat_map (xchild1 "Resolver") (xchild "Target" tree))
    as [|R' rest]; [discriminate|].
  injection Hh as ->. cbn [flat_map].
  destruct (xchild field R) as [|a' l]; [discriminate|].
  exact Ha.
Qed.

Lemma resolve_unfold objectName w r tree :
  putrequest_check (resolve_path objectName) = Ok tt ->
  server (length (sent w)) (resolve_request objectName) = Some r ->
  etree_fromstring (resp_body r) = Some tree ->
  resolve objectName w
  = (resolve_tree tree, log_request (resolve_request objectName) w).
Proof.
  intros Hp Hr Ht. unfold resolve, bind, http. rewrite Hp, Hr, Ht.
  destruct (resolve_tree tree); reflexivity.
Qed.

(** C5, amended.  For a response of the name service, which there is
    when the request was sent (the path passes the check of
    [http.client]) and answered: when the first Resolver entry of the
    response carries a jradeg and a jdedeg field whose texts read as
    floats, [resolve] returns the pair of the two; more generally it
    returns the floats of the first jradeg and the first jdedeg that the
    two XPath queries find; when the jradeg query finds nothing, and so
    when the response has no Resolver entry, it returns the empty list. *)
Theorem resolve_spec (objectName : string) (w : World) (r : Response)
    (tree : XElem) :
  putrequest_check (resolve_path objectName) = Ok tt ->
  server (length (sent w)) (resolve_request objectName) = Some r ->
  etree_fromstring (resp_body r) = Some tree ->
  let w' := log_request (resolve_request objectName) w in
  (forall R more a d ra dec,
      resolver_entries tree = R :: more ->
      head (xchild "jradeg" R) = Some a ->
      head (xchild "jdedeg" R) = Some d ->
      float_of_element a = Ok ra ->
      float_of_element d = Ok dec ->
      resolve objectName w = (Ok (RaDec ra dec), w'))
  /\ (forall a d ra dec,
        head (xpath_resolver_field "jradeg" tree) = Some a ->
        head (xpath_resolver_field "jdedeg" tree) = Some d ->
        float_of_element a = Ok ra ->
        float_of_element d = Ok dec ->
        resolve objectName w = (Ok (RaDec ra dec), w'))
  /\ (xpath_resolver_field "jradeg" tree = [] ->
      resolve objectName w = (Ok EmptyList, w'))
  /\ (resolver_entries tree = [] ->
      resolve objectName w = (Ok EmptyList, w')).
Proof.
  intros Hp Hr Ht w'. subst w'.
  rewrite (resolve_unfold _ _ _ _ Hp Hr Ht).
  assert (Hgen : forall a d ra dec,
             head (xpath_resolver_field "jradeg" tree) = Some a ->
             head (xpath_resolver_field "jdedeg" tree) = Some d ->
             float_of_element a = Ok ra ->
             float_of_element d = Ok dec ->
             resolve_tree tree = Ok (RaDec ra dec)).
  { intros a d ra dec Ha Hd Hra Hdec. unfold resolve_tree.
    destruct (xpath_resolver_field "jradeg" tree) as [|a' la];
      [discriminate|].
    destruct (xpath_resolver_field "jdedeg" tree) as [|d' ld];
      [discriminate|].
    cbn [head] in Ha, Hd. injection Ha as ->. injection Hd as ->.
    now rewrite Hra, Hdec. }
  assert (Hnil : xpath_resolver_field "jradeg" tree = [] ->
                 resolve_tree tree = Ok EmptyList).
  { intros Hn. unfold resolve_tree. now rewrite Hn. }
  split; [|split; [|split]].
  - intros R more a d ra dec HR Ha Hd Hra Hdec. f_equal.
    apply (Hgen a d); try assumption.
    + eapply xpath_first_resolver; eassumption.
    + eapply xpath_first_resolver; eassumption.
  - intros a d ra dec Ha Hd Hra Hdec. f_equal. now apply (Hgen a d).
  - intros Hn. f_equal. now apply Hnil.
  - intros Hn. f_equal. apply Hnil. now apply xpath_no_resolver.
Qed.
End ResolveFacts.

(** ** The time formatter *)



(** Comparing floats the other way round gives the opposite answer. *)
Lemma SFcompare_antisym (a b : float) :
  SFcompare b a = option_map CompOpp (SFcompare a b).
Proof.
  destruct a as [sa|sa| |sa ma ea], b as [sb|sb| |sb mb eb];
    try reflexivity;
    try (destruct sa, sb; reflexivity);
    try (destruct sa; reflexivity);
    try (destruct sb; reflexivity).
  cbn. destruct sa, sb; cbn; try reflexivity;
    rewrite (Z.compare_antisym ea eb);
    destruct (ea ?= eb); cbn; try reflexivity;
    repeat f_equal; exact (eq_sym (Pos.compare_cont_antisym ma mb Eq)).
Qed.

Lemma float_lt_le_false (a b : float) :
  float_lt a b = true -> float_le b a = false.
Proof.
  unfold float_lt, float_le, SFltb, SFleb. rewrite (SFcompare_antisym a b).
  destruct (SFcompare a b) as [[]|]; cbn; congruence.
Qed.




Section FormatterFacts.
Context `{Env}.

(** Where the logarithm reported below one thousand is finite and 3 at
    most, the index is one of -1, 0, 1, 2, 3. *)
Lemma time_order_range (t : float) :
  log10_below_1000 t -> exists k, time_order t = Ok k /\ -1 <= k <= 3.
Proof.
  intros Hs. unfold time_order.
  destruct (float_lt float_0 t) eqn:E0; cbn [andb].
  - destruct (float_lt t float_1000) eqn:E1.
    + destruct (Hs E0 E1) as (z & Hz & Hz3). unfold log10_floor in Hz.
      rewrite Hz. eexists; split; [reflexivity|].
      assert (z / 3 <= 1) by (apply Z.div_le_upper_bound; lia). lia.
    + destruct (float_le float_1000 t); eexists; (split; [reflexivity | lia]).
  - destruct (float_le float_1000 t); eexists; (split; [reflexivity | lia]).
Qed.

(** For an index from -1 to 3 the two tables are read at the position
    [k mod 4]: the index -1 counts from the end. *)
Lemma pretty_print_time_unfold (t : float) (k : Z) :
  time_order t = Ok k -> -1 <= k <= 3 ->
  exists u, nth_error ["s"; "ms"; "us"; "ns"] (Z.to_nat (k mod 4)) = Some u
    /\ _pretty_print_time t
       = Ok (format_float_g3
               (float_mul t (float_of_Z (1000 ^ (k mod 4)))) ++ " " ++ u).
Proof.
  intros Hk Hr. unfold _pretty_print_time. rewrite Hk.
  assert (Hc : k = -1 \/ k = 0 \/ k = 1 \/ k = 2 \/ k = 3) by lia.
  destruct Hc as [-> | [-> | [-> | [-> | ->]]]];
    eexists; split; reflexivity.
Qed.

(** Where the logarithm reported below one thousand is finite and 3 at
    most, the formatter does not raise. *)
Lemma pretty_print_time_total (t : float) :
  log10_below_1000 t -> exists txt, _pretty_print_time t = Ok txt.
Proof.
  intros Hs. destruct (time_order_range t Hs) as (k & Hk & Hr).
  destruct (pretty_print_time_unfold t k Hk Hr) as (u & _ & Hrun).
  eauto.
Qed.

(** Where [math.log10] rounds up to 3 below one thousand, the index is
    [-1], which Python counts from the end of the two tables: the
    duration is shown in nanoseconds. *)
Lemma pretty_print_time_log10_rounded_up (t : float) :
  float_lt float_0 t = true -> float_lt t float_1000 = true ->
  log10_floor t 3 ->
  _pretty_print_time t
  = Ok (format_float_g3 (float_mul t (float_of_Z 1000000000)) ++ " " ++ "ns").
Proof.
  intros H0 H1 Hfl. unfold _pretty_print_time, time_order.
  unfold log10_floor in Hfl. rewrite H0, H1, Hfl. reflexivity.
Qed.

(** C9.  The module-level formatter and the class method of [timeit]
    return the same text, or raise alike, on every duration. *)
Theorem pretty_print_time_agree (t : float) :
  _pretty_print_time t = timeit._pretty_print_time t.
Proof. reflexivity. Qed.

End FormatterFacts.

(** At half a second the mock environment reports a logarithm whose
    floor is -1. *)
Lemma mock_log10_half phase tree with_display :
  log10_below_1000 (H := mock_env phase tree with_display) float_half.
Proof. intros _ _. exists (-1). split; [vm_compute; reflexivity | lia]. Qed.

(** ** The execution timer *)

Section Timer.
Context `{Env} {A B : Type}.
Import timeit.

(** A call of an instance wrapping [f]: the clock is read, [f] runs, the
    clock is read again, the elapsed time is formatted and displayed. *)
Lemma timeit_call_unfold (f : A -> M World B) (args : A) (w : World) :
  __call__ (__init__ (Some f)) args w =
    let '(r, w2) := f args (log_clock w) in
    match _pretty_print_time (elapsed w w2) with
    | Raise e => (Raise e, log_clock w2)
    | Ok txt =>
        match call_display txt (log_clock w2) with
        | (Raise e, w4) => (Raise e, w4)
        | (Ok _, w4) =>
            (match r with Ok v => Ok (Some v) | Raise e => Raise e end, w4)
        end
    end.
Proof.
  unfold __call__, with_timeit, __init__, __enter__, __exit__, elapsed,
    bind, liftW, time_time, self_set, self_get, modify, gets, ret, raise.
  cbn.
  destruct (f args (log_clock w)) as [[v|e0] w2]; cbn;
    (destruct (_pretty_print_time
                 (float_sub (clock (clock_reads w2)) (clock (clock_reads w))))
       as [txt|e]; cbn; [|reflexivity]);
    destruct (call_display txt (log_clock w2)) as [[[]|e] w4];
    reflexivity.
Qed.

(** Used without a function, the instance returns nothing when called. *)
Lemma timeit_call_none (args : A) (w : World) :
  __call__ (A := A) (B := B) (__init__ None) args w = (Ok None, w).
Proof. reflexivity. Qed.

(** With a display facility that returns, the call returns what the
    wrapped function returned. *)
Lemma timeit_call_returns (f : A -> M World B) (args : A) (w : World)
    (d : string -> M World unit) (v : B) (w2 : World) :
  display = Some d ->
  (forall txt w0, exists w1, d txt w0 = (Ok tt, w1)) ->
  f args (log_clock w) = (Ok v, w2) ->
  log10_below_1000 (elapsed w w2) ->
  exists w4, __call__ (__init__ (Some f)) args w = (Ok (Some v), w4).
Proof.
  intros Hd Hok Hf Hex. rewrite timeit_call_unfold, Hf.
  destruct (pretty_print_time_total (elapsed w w2) Hex) as (txt & Htxt).
  change (_pretty_print_time (elapsed w w2) = Ok txt) in Htxt.
  rewrite Htxt. unfold call_display. rewrite Hd.
  destruct (Hok txt (log_clock w2)) as (w1 & ->). eauto.
Qed.

(** Where IPython is missing, the module-level [display] is [None] and
    the call raises [TypeError] once the wrapped function has run,
    whatever that function returned or raised. *)
Lemma timeit_call_display_missing (f : A -> M World B) (args : A)
    (w : World) (r : outcome B) (w2 : World) :
  display = None ->
  f args (log_clock w) = (r, w2) ->
  log10_below_1000 (elapsed w w2) ->
  __call__ (__init__ (Some f)) args w = (Raise TypeError, log_clock w2).
Proof.
  intros Hd Hf Hex. rewrite timeit_call_unfold, Hf.
  destruct (pretty_print_time_total (elapsed w w2) Hex) as (txt & Htxt).
  change (_pretty_print_time (elapsed w w2) = Ok txt) in Htxt.
  rewrite Htxt. unfold call_display. rewrite Hd. reflexivity.
Qed.
End Timer.

(** ** The statements at concrete inputs *)

(** C10.  Where IPython is missing, calling the instance that wraps the
    successor function on 41 lets the function run and then raises
    [TypeError] from [__exit__], in place of returning 42; with a display
    facility the same call returns 42, and an instance made without a
    function returns nothing. *)
Theorem timeit_call_without_display :
  let f : Z -> M World Z := fun x => ret (x + 1) in
  f 41 (log_clock world0) = (Ok 42, log_clock world0)
  /\ timeit.__call__ (H := mock_env always_error sesame_m31 false)
       (timeit.__init__ (Some f)) 41 world0
     = (Raise TypeError, log_clock (log_clock world0))
  /\ fst (timeit.__call__ (H := mock_env always_error sesame_m31 true)
            (timeit.__init__ (Some f)) 41 world0)
     = Ok (Some 42)
  /\ timeit.__call__ (H := mock_env always_error sesame_m31 false)
       (A := Z) (B := Z) (timeit.__init__ None) 41 world0
     = (Ok None, world0).
Proof.
  intros f. split; [reflexivity|]. split; [|split].
  - apply (timeit_call_display_missing (H := mock_env always_error sesame_m31 false)
             f 41 world0 (Ok 42) (log_clock world0));
      [reflexivity | reflexivity | apply mock_log10_half].
  - destruct (timeit_call_returns (H := mock_env always_error sesame_m31 true)
                f 41 world0 (fun text => modify (log_shown text)) 42
                (log_clock world0) eq_refl) as (w4 & Hrun).
    + intros txt w0. eexists. reflexivity.
    + reflexivity.
    + apply mock_log10_half.
    + now rewrite Hrun.
  - reflexivity.
Qed.


(** The largest float below one thousand: were the floor of the logarithm
    reported, it would be shown in seconds; with the logarithm rounded to
    3.0, as the platform's is, it is shown in nanoseconds. *)
Example pretty_print_time_below_1000 :
  _pretty_print_time (H := mock_env always_error sesame_m31 true) below_1000
  = Ok "1e+03 s"
  /\ _pretty_print_time
       (H := with_math_log10 (mock_env always_error sesame_m31 true)
               rounding_log10)
       below_1000
     = Ok "1e+12 ns".
Proof. split; vm_compute; reflexivity. Qed.

(** The product is rounded to binary64 before it is converted: 0.1005 is
    shown as 100 ms (the product is 100.5 exactly, a tie that goes to the
    even digit) and 0.9999 as 1e+03 ms; zeros keep their sign, and nan
    and the infinities are spelled out. *)
Example pretty_print_time_rounding :
  _pretty_print_time (H := mock_env always_error sesame_m31 true)
    float_0_1005 = Ok "100 ms"
  /\ _pretty_print_time (H := mock_env always_error sesame_m31 true)
       float_0_9999 = Ok "1e+03 ms"
  /\ _pretty_print_time (H := mock_env always_error sesame_m31 true)
       (S754_zero true) = Ok "-0 ns"
  /\ _pretty_print_time (H := mock_env always_error sesame_m31 true)
       S754_nan = Ok "nan ns"
  /\ _pretty_print_time (H := mock_env always_error sesame_m31 true)
       (S754_infinity false) = Ok "inf s"
  /\ _pretty_print_time (H := mock_env always_error sesame_m31 true)
       (SFopp (SFmax_float 53 1024)) = Ok "-inf ns".
Proof. repeat split; vm_compute; reflexivity. Qed.


(** C5, as stated, fails: the response has a Resolver entry, which carries
    no position, and [resolve] returns the empty list, not a pair. *)
Lemma resolve_counterexample :
  resolver_entries sesame_no_position <> []
  /\ resolve (H := mock_env always_error sesame_no_position true) "M31" world0
     = (Ok EmptyList, log_request (resolve_request "M31") world0)
  /\ forall ra dec,
       fst (resolve (H := mock_env always_error sesame_no_position true)
              "M31" world0)
       <> Ok (RaDec ra dec).
Proof.
  split; [vm_compute; discriminate|]. split; [reflexivity|].
  intros ra dec. vm_compute. discriminate.
Qed.

Lemma resolve_spec_witness :
  resolve (H := mock_env always_error sesame_m31 true) "M31" world0
  = (Ok (RaDec (1068 # 100) (4127 # 100)),
     log_request (resolve_request "M31") world0)
  /\ resolve (H := mock_env always_error sesame_unresolved true) "nowhere"
       world0
     = (Ok EmptyList, log_request (resolve_request "nowhere") world0).
Proof.
  split.
  - refine (proj1 (resolve_spec (H := mock_env always_error sesame_m31 true)
                     "M31" world0 _ sesame_m31 eq_refl eq_refl eq_refl)
              _ _ _ _ _ _ eq_refl eq_refl eq_refl eq_refl eq_refl).
  - refine (proj2 (proj2 (proj2
              (resolve_spec (H := mock_env always_error sesame_unresolved true)
                 "nowhere" world0 _ sesame_unresolved eq_refl eq_refl
                 eq_refl)))
              eq_refl).
Defined.

Lemma get_wait_terminates_iff_completed_witness :
  (exists fuel s',
      TAP_AsyncQuery.wait_loop (H := mock_env completes_at_2 sesame_m31 true)
        fuel (1 # 5) true (mock_job, world0) = Some (Ok tt, s'))
  /\ TAP_AsyncQuery.get (H := mock_env always_error sesame_m31 true)
       7 (1 # 5) true (mock_job, world0) = None.
Proof.
  split.
  - refine (proj2 (proj1 (proj2
              (get_wait_terminates_iff_completed
                 (H := mock_env completes_at_2 sesame_m31 true)
                 mock_job "1234" world0 (1 # 5) eq_refl _))) _).
    + discriminate.
    + exists 2%nat. split; [reflexivity|].
      intros [|[|i]] Hi; [exists "EXECUTING"; reflexivity
                         | exists "EXECUTING"; reflexivity | lia].
  - refine (proj1 (proj2 (proj2 (proj2 (proj2
              (get_wait_terminates_iff_completed
                 (H := mock_env always_error sesame_m31 true)
                 mock_job "1234" world0 (1 # 5) eq_refl _))) _ 7%nat))).
    + discriminate.
    + intros i. exists "ERROR". split; [reflexivity | discriminate].
Defined.

Lemma get_not_finished_returns_nothing_witness :
  exists q2 w2,
    TAP_AsyncQuery.get (H := mock_env completes_at_2 sesame_m31 true)
      1 (1 # 5) false (mock_job, world0) = Some (Ok None, (q2, w2))
    /\ sent w2
       = [TAP_AsyncQuery.status_request mock_job "1234";
          TAP_AsyncQuery.status_request mock_job "1234"]
    /\ slept w2 = [].
Proof.
  refine (proj2 (proj2
            (get_not_finished_returns_nothing
               (H := mock_env completes_at_2 sesame_m31 true)
               mock_job "1234" world0 (1 # 5) eq_refl))
            "EXECUTING" "EXECUTING" eq_refl eq_refl _ 0%nat).
  discriminate.
Defined.

Lemma query_sync_spec_witness :
  TAP_Service.query (H := mock_env always_error sesame_m31 true)
    "SELECT 1" true (TAPVizieR, world0)
  = (Ok (TAP_Service.QTable (H := mock_env always_error sesame_m31 true)
           "<VOTABLE/>"),
     (TAPVizieR,
      log_request (TAP_Service.sync_request TAPVizieR "SELECT 1") world0)).
Proof.
  refine (proj1 (proj2
            (query_sync_spec (H := mock_env always_error sesame_m31 true)
               TAPVizieR "SELECT 1" world0 _ eq_refl))
            "<VOTABLE/>" eq_refl).
Defined.

Lemma jobid_location_lifecycle_witness :
  exists q' w',
    TAP_AsyncQuery.submit (H := mock_env always_error sesame_m31 true) true
      (TAP_AsyncQuery.__init__ "SELECT 1" "example.org" "/tap/async" 80,
       world0)
    = (Ok tt, (q', w'))
    /\ TAP_AsyncQuery.jobid q' = Some "1234".
Proof.
  pose proof (jobid_location_lifecycle
                (H := mock_env always_error sesame_m31 true))
    as (_ & _ & Hsub & Hret & _).
  destruct (Hret true
              (TAP_AsyncQuery.__init__ "SELECT 1" "example.org" "/tap/async" 80)
              world0 _ _ eq_refl eq_refl) as (q' & w' & Hrun).
  exists q', w'. split; [exact Hrun|].
  destruct (Hsub _ _ _ _ _ Hrun) as (r & loc & Hr & Hl & _ & _ & Hj).
  injection Hr as <-. injection Hl as <-.
  apply (Hj "http://example.org/tap/async" "1234"); reflexivity.
Defined.

Lemma query_async_spec_witness :
  exists q w',
    TAP_Service.query_async (H := mock_env always_error sesame_m31 true)
      "SELECT 1" true {["silent" := true]} (GaiaArchive, world0)
    = (Ok q, (GaiaArchive, w'))
    /\ TAP_AsyncQuery.location q = Some "http://example.org/tap/async/1234"
    /\ TAP_AsyncQuery.jobid q = Some "1234".
Proof.
  refine (proj2 (proj2 (proj2
            (query_async_spec (H := mock_env always_error sesame_m31 true)
               GaiaArchive "SELECT 1" {["silent" := true]} world0)))
            true _ _ _ eq_refl eq_refl).
  vm_compute. reflexivity.
Defined.

(** * Further properties of the code *)

(** ** The asynchronous job: failures and edges *)

Section AsyncJobEdges.
Context `{Env}.
Import TAP_AsyncQuery.

(** X1.  A [submit] answered without a location header raises
    [AttributeError] after storing the response and a null location; the
    identifier is left as it was, so on a job that had been submitted
    before, [status] goes on polling the old job. *)
Theorem submit_without_location_keeps_jobid
    (silent : bool) (q : t) (w : World) (r : Response) :
  server (length (sent w)) (submit_request q) = Some r ->
  getheader r "location" = None ->
  exists q',
    submit silent (q, w)
    = (Raise AttributeError, (q', log_request (submit_request q) w))
    /\ response q' = Some r
    /\ location q' = None
    /\ jobid q' = jobid q
    /\ forall id w1,
         jobid q = Some id ->
         sent (snd (snd (status (q', w1))))
         = (sent w1 ++ [status_request q id])%list.
Proof.
  intros Hr Hl. exists (set_location None (set_response r q)).
  rewrite submit_unfold. cbv zeta. rewrite Hr, Hl.
  split; [reflexivity|]. split; [reflexivity|]. split; [reflexivity|].
  split; [reflexivity|]. intros id w1 Hid.
  rewrite (status_unfold _ _ id) by exact Hid.
  change (status_request (set_location None (set_response r q)) id)
    with (status_request q id).
  destruct (server (length (sent w1)) (status_request q id)); reflexivity.
Qed.

(** X2.  The flag [silent] changes what is printed and nothing else: the
    outcome, the job and the requests sent are the same; a silent [submit]
    prints nothing, a failing one prints nothing either, and a returning
    one that is not silent prints three lines, the last two giving the
    location and the identifier it stored. *)
Theorem submit_silent_only_affects_stdout (q : t) (w : World) :
  fst (submit true (q, w)) = fst (submit false (q, w))
  /\ fst (snd (submit true (q, w))) = fst (snd (submit false (q, w)))
  /\ sent (snd (snd (submit true (q, w))))
     = sent (snd (snd (submit false (q, w))))
  /\ sent (snd (snd (submit false (q, w))))
     = (sent w ++ [submit_request q])%list
  /\ stdout (snd (snd (submit true (q, w)))) = stdout w
  /\ (forall e, fst (submit false (q, w)) = Raise e ->
        stdout (snd (snd (submit false (q, w)))) = stdout w)
  /\ (fst (submit false (q, w)) = Ok tt ->
      exists first loc id,
        location (fst (snd (submit false (q, w)))) = Some loc
        /\ jobid (fst (snd (submit false (q, w)))) = Some id
        /\ stdout (snd (snd (submit false (q, w))))
           = (stdout w
                ++ [first; ("Location: " ++ loc)%string;
                    ("Job id: " ++ id)%string])%list).
Proof.
  rewrite !submit_unfold. cbv zeta.
  destruct (server (length (sent w)) (submit_request q)) as [r|].
  - destruct (getheader r "location") as [loc|]; cbn.
    + repeat (split; [reflexivity|]). split; [discriminate|].
      intros _.
      exists ("Query Status: " ++ pretty (resp_status r) ++ " "
              ++ "Reason: " ++ resp_reason r), loc, (jobid_of_location loc).
      split; [reflexivity|]. split; [reflexivity|].
      repeat rewrite <- List.app_assoc. reflexivity.
    + repeat (split; [reflexivity|]). discriminate.
  - cbn. repeat (split; [reflexivity|]). discriminate.
Qed.

(** X3.  A negative [sleep] makes a waiting [get] raise [ValueError] on
    its first turn, when the first poll reads a phase other than COMPLETED:
    one status request has been sent and no sleep has taken place. *)
Theorem get_negative_sleep_raises
    (q : t) (id : string) (w : World) (sleep : Q) (ph : string) :
  jobid q = Some id ->
  (sleep < 0)%Q ->
  poll q id (length (sent w)) = Ok ph ->
  ph <> "COMPLETED" ->
  forall fuel, exists q',
    get (S fuel) sleep true (q, w)
    = Some (Raise ValueError, (q', log_request (status_request q id) w))
    /\ same_job q q'.
Proof.
  intros Hid Hs Hp Hne fuel.
  destruct (finished_poll q w id ph Hid Hp) as (q' & Hsame & Hf).
  exists q'. split; [|exact Hsame].
  unfold get. cbn [wait_loop]. rewrite Hf.
  apply String.eqb_neq in Hne. rewrite Hne. cbn [negb andb].
  unfold liftW, time_sleep. cbn [fst snd].
  apply Qlt_bool_iff in Hs. rewrite Hs. reflexivity.
Qed.

Lemma status_slept (s : t * World) :
  slept (snd (snd (status s))) = slept (snd s).
Proof.
  destruct s as [q w]. destruct (jobid q) as [id|] eqn:Hid.
  - rewrite (status_unfold _ _ _ Hid).
    destruct (server (length (sent w)) (status_request q id)); reflexivity.
  - now rewrite status_without_jobid.
Qed.

Lemma finished_slept (s : t * World) :
  slept (snd (snd (finished s))) = slept (snd s).
Proof.
  rewrite finished_unfold. pose proof (status_slept s) as Hs.
  destruct (status s) as [[ph|e] s']; exact Hs.
Qed.

Lemma fetch_result_slept (s : t * World) :
  slept (snd (snd (fetch_result s))) = slept (snd s).
Proof.
  destruct s as [q w]. destruct (jobid q) as [id|] eqn:Hid.
  - rewrite (fetch_result_unfold _ _ _ Hid).
    destruct (server (length (sent w)) (result_request q id)); reflexivity.
  - unfold fetch_result, bind, self_get, gets. cbn. now rewrite Hid.
Qed.

Lemma get_after_wait_slept (s : t * World) :
  slept (snd (snd (get_after_wait s))) = slept (snd s).
Proof.
  unfold get_after_wait, bind. pose proof (finished_slept s) as Hf.
  destruct (finished s) as [[b|e] s1]; [|exact Hf].
  destruct b; cbn [negb].
  - rewrite fetch_result_slept. exact Hf.
  - exact Hf.
Qed.

(** X4.  Without waiting, [get] never blocks and never sleeps: one unit of
    fuel is enough in every state, more fuel and another [sleep] give the
    same result, and the sleeps recorded in the world are untouched. *)
Theorem get_nowait_never_blocks (s : t * World) (sleep : Q) :
  (exists r, get 1 sleep false s = Some r)
  /\ (forall fuel sleep',
        get (S fuel) sleep' false s = get 1 sleep false s)
  /\ (forall r s', get 1 sleep false s = Some (r, s') ->
        slept (snd s') = slept (snd s)).
Proof.
  assert (Hone : forall fuel sl,
             get (S fuel) sl false s =
             match finished s with
             | (Raise e, s1) => Some (Raise e, s1)
             | (Ok _, s1) => Some (get_after_wait s1)
             end).
  { intros fuel sl. unfold get. cbn [wait_loop].
    destruct (finished s) as [[b|e] s1]; [|reflexivity].
    now rewrite andb_false_r. }
  split; [|split].
  - rewrite Hone. destruct (finished s) as [[b|e] s1]; eauto.
  - intros fuel sleep'. now rewrite !Hone.
  - intros r s'. rewrite Hone. pose proof (finished_slept s) as Hf.
    destruct (finished s) as [[b|e] s1]; intros [= Heq].
    + pose proof (get_after_wait_slept s1) as Hg. rewrite Heq in Hg.
      cbn [snd] in Hg, Hf. congruence.
    + subst. exact Hf.
Qed.

(** X5.  A status poll that fails ends the waiting loop: when the polls
    before it read phases other than COMPLETED and poll [n] raises [e]
    (no answer, a body that is no XML, no phase element), [get] raises [e]
    after [n + 1] status requests and [n] sleeps. *)
Theorem get_poll_failure_propagates
    (q : t) (id : string) (w : World) (sleep : Q) (n : nat) (e : exn) :
  jobid q = Some id ->
  (0 <= sleep)%Q ->
  (forall i, (i < n)%nat ->
     exists ph, poll q id (length (sent w) + i) = Ok ph
                /\ ph <> "COMPLETED") ->
  poll q id (length (sent w) + n) = Raise e ->
  forall fuel, exists s',
    get (n + S fuel) sleep true (q, w) = Some (Raise e, s')
    /\ sent (snd s')
       = (sent w ++ repeat (status_request q id) (S n))%list
    /\ slept (snd s') = (slept w ++ repeat sleep n)%list.
Proof.
  intros Hid Hs Hb Hn fuel.
  destruct (wait_loop_turns id sleep n q w Hid Hs Hb) as (q1 & Hsame & Hrun).
  assert (Hid1 : jobid q1 = Some id)
    by (destruct Hsame as (_ & _ & _ & Hj & _); congruence).
  unfold get. rewrite Hrun. cbn [wait_loop].
  rewrite finished_unfold, (status_unfold _ _ _ Hid1).
  rewrite (same_job_status_request _ _ _ Hsame), after_turns_length.
  unfold poll in Hn.
  set (wn := after_turns (status_request q id) sleep n w).
  assert (Hsent : sent (log_request (status_request q id) wn)
                  = (sent w ++ repeat (status_request q id) (S n))%list).
  { cbn [sent log_request]. unfold wn. rewrite after_turns_sent.
    rewrite <- List.app_assoc. f_equal. cbn [repeat].
    now rewrite repeat_cons. }
  assert (Hslept : slept (log_request (status_request q id) wn)
                   = (slept w ++ repeat sleep n)%list)
    by (cbn [slept log_request]; apply after_turns_slept).
  destruct (server (length (sent w) + n) (status_request q id)) as [r|].
  - rewrite Hn. eexists. split; [reflexivity|]. split; assumption.
  - injection Hn as <-. eexists. split; [reflexivity|]. split; assumption.
Qed.

(** X6.  On a job that both polls find COMPLETED, [get] sends the result
    request and stores the response and its body on the job before the body
    is parsed: a body that parses is returned as the table, and one that
    does not raises, the raw body staying in [data]; nothing is slept. *)
Theorem get_completed_result
    (q : t) (id : string) (w : World) (sleep : Q) (wait : bool)
    (resp : Response) :
  jobid q = Some id ->
  poll q id (length (sent w)) = Ok "COMPLETED" ->
  poll q id (S (length (sent w))) = Ok "COMPLETED" ->
  server (S (S (length (sent w)))) (result_request q id) = Some resp ->
  forall fuel, exists q' w',
    get (S fuel) sleep wait (q, w)
    = Some (match Table_read (resp_body resp) with
            | Some table => Ok (Some table)
            | None => Raise VOTableError
            end, (q', w'))
    /\ data q' = Some (resp_body resp)
    /\ response q' = Some resp
    /\ same_job q q'
    /\ sent w'
       = (sent w ++ [status_request q id; status_request q id;
                     result_request q id])%list
    /\ slept w' = slept w.
Proof.
  intros Hid Hp0 Hp1 Hres fuel.
  destruct (wait_loop_last q w id sleep wait Hid Hp0) as (q1 & Hsame1 & Hl).
  assert (Hid1 : jobid q1 = Some id)
    by (destruct Hsame1 as (_ & _ & _ & Hj & _); congruence).
  destruct (finished_poll q1 (log_request (status_request q id) w) id
              "COMPLETED" Hid1) as (q2 & Hsame2 & Hf).
  { rewrite (same_job_poll _ _ _ _ Hsame1). cbn [sent log_request].
    rewrite length_app. cbn [length].
    now replace (length (sent w) + 1)%nat with (S (length (sent w))) by lia. }
  assert (Hsame : same_job q q2) by (eapply same_job_trans; eassumption).
  assert (Hid2 : jobid q2 = Some id)
    by (destruct Hsame as (_ & _ & _ & Hj & _); congruence).
  assert (Hrr : result_request q2 id = result_request q id).
  { destruct Hsame as (Hh & Hpo & Hpa & _). unfold result_request.
    now rewrite Hh, Hpo, Hpa. }
  rewrite (same_job_status_request _ _ _ Hsame1) in Hf.
  unfold get. rewrite Hl. unfold get_after_wait, bind. rewrite Hf.
  change (String.eqb "COMPLETED" "COMPLETED") with true. cbn [negb].
  rewrite (fetch_result_unfold _ _ _ Hid2), Hrr.
  cbn [sent log_request]. rewrite !length_app. cbn [length].
  replace (length (sent w) + 1 + 1)%nat with (S (S (length (sent w))))
    by lia.
  rewrite Hres.
  exists (set_data (resp_body resp) (set_response resp q2)).
  eexists. split; [reflexivity|].
  split; [reflexivity|]. split; [reflexivity|].
  split; [eapply same_job_trans; [exact Hsame|repeat split]|].
  split; [|reflexivity].
  cbn [sent log_request]. repeat rewrite <- List.app_assoc. reflexivity.
Qed.

Lemma same_job_result_request q q' id :
  same_job q q' -> result_request q' id = result_request q id.
Proof.
  intros (Hh & Hp & Hpa & _). unfold result_request. now rewrite Hh, Hp, Hpa.
Qed.

Lemma get_after_wait_trace q w id r q' w' :
  jobid q = Some id ->
  get_after_wait (q, w) = (r, (q', w')) ->
  same_job q q'
  /\ exists l, sent w' = (sent w ++ status_request q id :: l)%list
               /\ (l = [] \/ l = [result_request q id]).
Proof.
  intros Hid. unfold get_after_wait, bind.
  rewrite finished_unfold, (status_unfold _ _ _ Hid).
  destruct (server (length (sent w)) (status_request q id)) as [resp|].
  2:{ intros [= <- <- <-]. split; [apply same_job_refl|].
      exists []. split; [reflexivity | now left]. }
  assert (Hsame : same_job q (set_response resp q)) by (repeat split).
  destruct (phase_of_body (resp_body resp)) as [ph|e].
  2:{ intros [= <- <- <-]. split; [exact Hsame|].
      exists []. split; [reflexivity | now left]. }
  destruct (String.eqb ph "COMPLETED"); cbn [negb].
  2:{ intros [= <- <- <-]. split; [exact Hsame|].
      exists []. split; [reflexivity | now left]. }
  rewrite (fetch_result_unfold _ _ id) by exact Hid.
  change (result_request (set_response resp q) id)
    with (result_request q id).
  destruct (server _ (result_request q id)) as [resp2|];
    intros [= <- <- <-].
  - split; [repeat split|]. exists [result_request q id].
    split; [|now right]. cbn [sent log_request].
    now rewrite <- List.app_assoc.
  - split; [exact Hsame|]. exists [result_request q id].
    split; [|now right]. cbn [sent log_request].
    now rewrite <- List.app_assoc.
Qed.

(** X7.  Whatever [get] does on a job with an identifier, it only reads:
    the requests it adds are status requests followed by at most one result
    request, all of them GETs to the job's own host and port, and the job
    keeps its host, port, path, query, location and identifier. *)
Theorem get_sends_only_reads
    (q : t) (id : string) (w : World) (fuel : nat) (sleep : Q) (wait : bool)
    (r : outcome (option Table)) (q' : t) (w' : World) :
  jobid q = Some id ->
  get fuel sleep wait (q, w) = Some (r, (q', w')) ->
  same_job q q'
  /\ exists k l,
       sent w' = (sent w ++ repeat (status_request q id) k ++ l)%list
       /\ (l = [] \/ l = [result_request q id])
       /\ Forall is_GET (repeat (status_request q id) k ++ l)
       /\ Forall (to_host (host q) (port q))
            (repeat (status_request q id) k ++ l).
Proof.
  intros Hid Hget.
  assert (Hall : forall k l,
             l = [] \/ l = [result_request q id] ->
             Forall is_GET (repeat (status_request q id) k ++ l)
             /\ Forall (to_host (host q) (port q))
                  (repeat (status_request q id) k ++ l)).
  { intros k l Hl. split; apply Forall_app; split.
    - apply Forall_forall. intros x Hx.
      apply list_elem_of_In, repeat_spec in Hx. now subst.
    - destruct Hl as [-> | ->]; repeat constructor.
    - apply Forall_forall. intros x Hx.
      apply list_elem_of_In, repeat_spec in Hx. subst. now split.
    - destruct Hl as [-> | ->]; repeat constructor. }
  unfold get in Hget.
  destruct (wait_loop fuel sleep wait (q, w)) as [[[[]|e] [q1 w1]]|] eqn:Hloop;
    [| |discriminate].
  - destruct (wait_loop_trace id sleep wait fuel q w _ q1 w1 Hid Hloop)
      as (Hsame1 & k & Hk).
    assert (Hid1 : jobid q1 = Some id)
      by (destruct Hsame1 as (_ & _ & _ & Hj & _); congruence).
    injection Hget as Hget.
    destruct (get_after_wait_trace q1 w1 id r q' w' Hid1 Hget)
      as (Hsame2 & l & Hs & Hl).
    rewrite (same_job_status_request _ _ _ Hsame1) in Hs.
    rewrite (same_job_result_request _ _ _ Hsame1) in Hl.
    split; [eapply same_job_trans; eassumption|].
    exists (S k), l. split; [|split; [exact Hl | apply Hall; exact Hl]].
    rewrite Hs, Hk, <- !List.app_assoc. f_equal.
    change (status_request q id :: l) with ([status_request q id] ++ l)%list.
    rewrite List.app_assoc, <- repeat_cons. reflexivity.
  - injection Hget as <- <- <-.
    destruct (wait_loop_trace id sleep wait fuel q w _ q1 w1 Hid Hloop)
      as (Hsame1 & k & Hk).
    split; [exact Hsame1|]. exists k, [].
    split; [now rewrite app_nil_r|]. split; [now left|].
    apply Hall. now left.
Qed.
End AsyncJobEdges.

(** ** The status document *)

(** Induction on documents, with the hypothesis on every child. *)
Lemma Node_children_ind (P : Node -> Prop) :
  (forall d, P (Text d)) ->
  (forall tg ch, Forall P ch -> P (Element tg ch)) ->
  forall n, P n.
Proof.
  intros HT HE.
  fix IH 1. intros [d|tg ch]; [apply HT|].
  apply HE. induction ch as [|c ch IHch]; constructor; [apply IH | exact IHch].
Qed.

Lemma matching_elements_spec (name : string) :
  name <> "*" ->
  forall n x,
    In x (matching_elements name n)
    <-> (x = n \/ descendant n x) /\ exists ch, x = Element name ch.
Proof.
  intros Hname. apply String.eqb_neq in Hname.
  induction n as [d|tg ch IH] using Node_children_ind; intros x.
  - cbn. split; [tauto|]. intros [[-> | Hd] [c Hc]]; [discriminate|].
    inversion Hd.
  - cbn [matching_elements]. rewrite Hname. cbn [orb].
    rewrite in_app_iff, in_flat_map. split.
    + intros [Hx | (c & Hc & Hx)].
      * destruct (String.eqb tg name) eqn:E; [|contradiction].
        apply String.eqb_eq in E. destruct Hx as [<- | []].
        split; [now left|]. exists ch. now rewrite E.
      * rewrite Forall_forall in IH.
        apply (IH c) in Hx; [|now apply list_elem_of_In].
        destruct Hx as [[-> | Hd] Hch]; (split; [right|exact Hch]).
        -- now apply desc_child.
        -- now apply desc_below with c.
    + intros [[-> | Hd] (c & Hc)].
      * left. injection Hc as -> ->. rewrite String.eqb_refl. now left.
      * right. rewrite Forall_forall in IH.
        inversion Hd as [tg' ch' c' Hin | tg' ch' c' d' Hin Hd']; subst.
        -- exists (Element name c). split; [exact Hin|].
           apply IH; [now apply list_elem_of_In|].
           split; [now left | now exists c].
        -- exists c'. split; [exact Hin|].
           apply IH; [now apply list_elem_of_In|].
           split; [now right | now exists c].
Qed.

(** The elements found by tag name are the elements of that name below the
    node, at any depth. *)
Lemma getElementsByTagName_spec (name : string) (n x : Node) :
  name <> "*" ->
  In x (getElementsByTagName n name)
  <-> descendant n x /\ exists ch, x = Element name ch.
Proof.
  intros Hname. destruct n as [d|tg ch]; cbn [getElementsByTagName].
  - split; [intros [] | intros [Hd _]; inversion Hd].
  - rewrite in_flat_map. split.
    + intros (c & Hc & Hx).
      apply (matching_elements_spec name Hname) in Hx.
      destruct Hx as [[-> | Hd] Hch]; (split; [|exact Hch]).
      * now apply desc_child.
      * now apply desc_below with c.
    + intros [Hd Hch].
      inversion Hd as [tg' ch' c' Hin | tg' ch' c' d' Hin Hd']; subst.
      * exists x. split; [exact Hin|].
        apply (matching_elements_spec name Hname). split; [now left|exact Hch].
      * exists c'. split; [exact Hin|].
        apply (matching_elements_spec name Hname). split; [now right|exact Hch].
Qed.

Section StatusDocument.
Context `{Env}.
Import TAP_AsyncQuery.

(** X8.  When the server answers a status poll with a body that parses,
    the response is stored on the job and one request is sent whatever
    follows; [status] raises [IndexError] exactly when no element named
    uws:phase lies anywhere below the document node, and what it returns
    otherwise is the serialisation of the first child of such an
    element. *)
Theorem status_reads_phase_at_any_depth
    (q : t) (id : string) (w : World) (r : Response) (dom : Node) :
  jobid q = Some id ->
  server (length (sent w)) (status_request q id) = Some r ->
  parseString (resp_body r) = Some dom ->
  snd (status (q, w))
  = (set_response r q, log_request (status_request q id) w)
  /\ (fst (status (q, w)) = Raise IndexError
      <-> ~ exists x ch,
              descendant dom x /\ x = Element "uws:phase" ch)
  /\ (forall ph,
        fst (status (q, w)) = Ok ph ->
        exists ch c,
          descendant dom (Element "uws:phase" ch)
          /\ firstChild (Element "uws:phase" ch) = Some c
          /\ ph = toxml c).
Proof.
  intros Hid Hr Hdom. rewrite (status_unfold _ _ _ Hid), Hr.
  cbn [fst snd]. split; [reflexivity|].
  assert (Hname : "uws:phase" <> "*") by discriminate.
  unfold phase_of_body. rewrite Hdom.
  destruct (getElementsByTagName dom "uws:phase") as [|el els] eqn:Els.
  - split.
    + split; [|reflexivity]. intros _ (x & ch & Hd & Hx).
      assert (Hin : In x (getElementsByTagName dom "uws:phase"))
        by (apply getElementsByTagName_spec; eauto).
      rewrite Els in Hin. destruct Hin.
    + discriminate.
  - assert (Hin : In el (getElementsByTagName dom "uws:phase"))
      by (rewrite Els; now left).
    apply getElementsByTagName_spec in Hin; [|exact Hname].
    destruct Hin as [Hd (ch & ->)]. split.
    + split.
      * destruct (firstChild (Element "uws:phase" ch)); discriminate.
      * intros Hno. exfalso. apply Hno. eauto.
    + intros ph Hph.
      destruct (firstChild (Element "uws:phase" ch)) as [c|] eqn:Ec;
        [|discriminate].
      injection Hph as <-. eauto.
Qed.
End StatusDocument.

(** ** The service: failures and composition *)

Section ServiceEdges.
Context `{Env}.
Import TAP_Service.

(** X9.  Whatever [query] does, it sends exactly one request and leaves
    the host, the port, the path and so the endpoint of the service as they
    were; the stored response changes only when a synchronous query
    returns nothing. *)
Theorem query_keeps_connection_data
    (adql_query : string) (sync : bool) (s : t) (w : World)
    (r : outcome query_result) (s' : t) (w' : World) :
  query adql_query sync (s, w) = (r, (s', w')) ->
  host s' = host s /\ port s' = port s /\ path s' = path s
  /\ tap_endpoint s' = tap_endpoint s
  /\ (exists rq, sent w' = (sent w ++ [rq])%list)
  /\ (response s' = response s \/ (sync = true /\ r = Ok QNone)).
Proof.
  destruct sync.
  - unfold query, bind, self_get, gets, liftW, http. cbn.
    destruct (server (length (sent w)) (sync_request s adql_query)) as [resp|];
      cbn.
    + destruct (Table_read (resp_body resp)) as [table|]; cbn;
        intros [= <- <- <-]; repeat (split; [reflexivity|]).
      * split; [eexists; reflexivity | now left].
      * split; [eexists; reflexivity | now right].
    + intros [= <- <- <-]. repeat (split; [reflexivity|]).
      split; [eexists; reflexivity | now left].
  - unfold query, bind.
    rewrite (query_async_submit_unfold s adql_query ∅ w false)
      by reflexivity.
    rewrite submit_unfold. cbv zeta.
    destruct (server _ _) as [resp|].
    + destruct (getheader resp "location") as [loc|];
        intros [= <- <- <-]; repeat (split; [reflexivity|]);
        (split; [eexists; reflexivity | now left]).
    + intros [= <- <- <-]. repeat (split; [reflexivity|]).
      split; [eexists; reflexivity | now left].
Qed.

(** X10.  A synchronous [query] raises exactly when the server gives no
    answer, and then it raises [OSError] and stores nothing: unlike a body
    that does not parse, a failed connection is not swallowed. *)
Theorem query_sync_raises_iff_no_answer
    (adql_query : string) (s : t) (w : World) (e : exn) :
  fst (query adql_query true (s, w)) = Raise e
  <-> server (length (sent w)) (sync_request s adql_query) = None
      /\ e = OSError
      /\ snd (query adql_query true (s, w))
         = (s, log_request (sync_request s adql_query) w).
Proof.
  unfold query, bind, self_get, gets, liftW, http. cbn.
  destruct (server (length (sent w)) (sync_request s adql_query)) as [resp|];
    cbn.
  - destruct (Table_read (resp_body resp)); cbn;
      (split; [discriminate | intros [[=] _]]).
  - split; [intros [= <-]; auto | intros (_ & -> & _); reflexivity].
Qed.

(** X11.  An asynchronous [query] that the server answers with a location
    header returns a job whose status is polled at the service's path
    followed by /async/ and the identifier, and whose result is fetched
    below that at /results/result, on the service's host and port; the
    submission is not silent and prints three lines. *)
Theorem query_async_request_paths
    (adql_query : string) (s : t) (w : World) (r : Response) (loc : string) :
  server (length (sent w))
    (TAP_AsyncQuery.submit_request
       (TAP_AsyncQuery.__init__ adql_query (host s) (path s ++ "/async")
          (port s)))
  = Some r ->
  getheader r "location" = Some loc ->
  let id := TAP_AsyncQuery.jobid_of_location loc in
  exists q w',
    query adql_query false (s, w) = (Ok (QJob q), (s, w'))
    /\ TAP_AsyncQuery.jobid q = Some id
    /\ TAP_AsyncQuery.status_request q id
       = HTTPConnection_request (host s) (port s) "GET"
           (path s ++ "/async/" ++ id) None []
    /\ TAP_AsyncQuery.result_request q id
       = HTTPConnection_request (host s) (port s) "GET"
           (path s ++ "/async/" ++ id ++ "/results/result") None []
    /\ length (stdout w') = (length (stdout w) + 3)%nat.
Proof.
  intros Hr Hl id. unfold query, bind.
  rewrite (query_async_submit_unfold s adql_query ∅ w false) by reflexivity.
  rewrite submit_unfold. cbv zeta. rewrite Hr, Hl. cbn [negb].
  do 2 eexists. split; [reflexivity|]. split; [reflexivity|].
  unfold TAP_AsyncQuery.status_request, TAP_AsyncQuery.result_request.
  cbn [TAP_AsyncQuery.host TAP_AsyncQuery.port TAP_AsyncQuery.path
       TAP_AsyncQuery.set_jobid TAP_AsyncQuery.set_location
       TAP_AsyncQuery.set_response TAP_AsyncQuery.__init__].
  rewrite !string_app_assoc.
  split; [reflexivity|]. split; [reflexivity|].
  cbn [stdout log_print log_request]. rewrite !length_app. cbn [length]. lia.
Qed.

(** X12.  The options of [query_async] are bound to [submit] only when the
    job is submitted: a keyword other than silent makes the submitting call
    raise [TypeError] before any request is sent, and is ignored when
    [submit] is false; with no other keyword the flag is the value given
    for silent, false by default. *)
Theorem query_async_unknown_keyword
    (adql_query : string) (kwargs : gmap string bool) (s : t) (w : World) :
  (forall k b,
      kwargs !! k = Some b -> k <> "silent" ->
      query_async adql_query true kwargs (s, w) = (Raise TypeError, (s, w))
      /\ fst (query_async adql_query false kwargs (s, w))
         = Ok (TAP_AsyncQuery.__init__ adql_query (host s)
                 (path s ++ "/async") (port s)))
  /\ ((forall k, is_Some (kwargs !! k) -> k = "silent") ->
      bind_submit_kwargs kwargs = Ok (default false (kwargs !! "silent"))).
Proof.
  split.
  - intros k b Hk Hne. split; [|reflexivity].
    unfold query_async, bind, self_get, gets. cbn.
    unfold bind_submit_kwargs. case_decide as Hsub; [|reflexivity].
    exfalso. apply Hne.
    assert (Hin : k ∈ dom kwargs) by (apply elem_of_dom; eauto).
    apply Hsub in Hin. set_solver.
  - intros Hall. unfold bind_submit_kwargs. case_decide as Hsub; [reflexivity|].
    exfalso. apply Hsub. intros k Hk. apply elem_of_dom in Hk.
    apply Hall in Hk. set_solver.
Qed.
End ServiceEdges.

(** ** The name resolver: failures and what the answer depends on *)

Lemma flat_map_take1_heads {A B : Type} (f : A -> list B) (l l' : list A) :
  map (fun a => head (f a)) l = map (fun a => head (f a)) l' ->
  flat_map (fun a => take 1 (f a)) l = flat_map (fun a => take 1 (f a)) l'.
Proof.
  assert (Ht : forall a, take 1 (f a) = match head (f a) with
                                        | Some b => [b]
                                        | None => []
                                        end)
    by (intros a; destruct (f a) as [|b [|c r]]; reflexivity).
  revert l'. induction l as [|a l IH]; intros [|a' l'] Hm;
    try discriminate; [reflexivity|].
  cbn [map] in Hm. injection Hm as Hh Hm.
  cbn [flat_map]. rewrite !Ht, Hh. f_equal. now apply IH.
Qed.

Lemma any_char_app (p : ascii -> bool) (a b : string) :
  any_char p (a ++ b) = any_char p a || any_char p b.
Proof.
  induction a as [|c a IH]; [reflexivity|].
  change (String c a ++ b) with (String c (a ++ b)).
  cbn [any_char]. rewrite IH. now rewrite orb_assoc.
Qed.

Section ResolveEdges.
Context `{Env}.

(** X13.  [resolve] refuses an object name that [http.client] does not
    take as part of a path: a name holding a blank or a control character
    (so every name written with a space) raises [InvalidURL], and one
    holding a character outside ASCII [UnicodeEncodeError], with nothing
    sent.  For every other name one GET is sent to the name service, the
    name appended as it is to the query path, whatever follows; no answer
    raises [OSError] and a body that is no XML [XMLSyntaxError]; a right
    ascension without any declination raises [IndexError], a field
    without text [TypeError] and a text that is no number [ValueError];
    a declination without any right ascension still gives the empty
    list. *)
Theorem resolve_failure_modes (objectName : string) (w : World) :
  (forall e, putrequest_check (resolve_path objectName) = Raise e ->
     resolve objectName w = (Raise e, w))
  /\ (forall pre c suf,
        objectName = pre ++ String c suf ->
        (disallowed_url_char c = true ->
         resolve objectName w = (Raise InvalidURL, w))
        /\ (non_ascii_char c = true ->
            any_char disallowed_url_char objectName = false ->
            resolve objectName w = (Raise UnicodeEncodeError, w)))
  /\ (putrequest_check (resolve_path objectName) = Ok tt ->
      snd (resolve objectName w) = log_request (resolve_request objectName) w
      /\ resolve_request objectName
         = HTTPConnection_request "cdsweb.u-strasbg.fr" 80 "GET"
             ("/cgi-bin/nph-sesame/-ox?" ++ objectName) None []
      /\ (server (length (sent w)) (resolve_request objectName) = None ->
          fst (resolve objectName w) = Raise OSError)
      /\ (forall r,
            server (length (sent w)) (resolve_request objectName) = Some r ->
            (etree_fromstring (resp_body r) = None ->
             fst (resolve objectName w) = Raise XMLSyntaxError)
            /\ (forall tree,
                  etree_fromstring (resp_body r) = Some tree ->
                  (xpath_resolver_field "jradeg" tree = [] ->
                   fst (resolve objectName w) = Ok EmptyList)
                  /\ (forall a rest,
                        xpath_resolver_field "jradeg" tree = a :: rest ->
                        (xtext a = None ->
                         fst (resolve objectName w) = Raise TypeError)
                        /\ (forall txt, xtext a = Some txt ->
                              float_of_text txt = None ->
                              fst (resolve objectName w) = Raise ValueError)
                        /\ (forall ra, float_of_element a = Ok ra ->
                              xpath_resolver_field "jdedeg" tree = [] ->
                              fst (resolve objectName w)
                              = Raise IndexError))))).
Proof.
  assert (Hraise : forall e,
             putrequest_check (resolve_path objectName) = Raise e ->
             resolve objectName w = (Raise e, w)).
  { intros e He. unfold resolve. now rewrite He. }
  split; [exact Hraise|]. split.
  - intros pre c suf ->. split.
    + intros Hc. apply Hraise. unfold putrequest_check, resolve_path.
      rewrite !any_char_app. cbn [any_char]. rewrite Hc.
      now rewrite !orb_true_r.
    + intros Hc Hok. apply Hraise. unfold putrequest_check, resolve_path.
      rewrite (any_char_app disallowed_url_char), Hok.
      rewrite !any_char_app. cbn [any_char]. rewrite Hc.
      now rewrite !orb_true_r.
  - intros Hp. split; [|split; [reflexivity|split]].
    + unfold resolve, bind, http. rewrite Hp.
      destruct (server (length (sent w)) (resolve_request objectName))
        as [r|]; [|reflexivity].
      destruct (etree_fromstring (resp_body r)) as [tree|]; [|reflexivity].
      destruct (resolve_tree tree); reflexivity.
    + intros Hr. unfold resolve, bind, http. now rewrite Hp, Hr.
    + intros r Hr. split.
      * intros Ht. unfold resolve, bind, http. now rewrite Hp, Hr, Ht.
      * intros tree Ht. rewrite (resolve_unfold _ _ _ _ Hp Hr Ht).
        cbn [fst]. unfold resolve_tree. split; [now intros ->|].
        intros a rest ->. unfold float_of_element.
        split; [now intros ->|]. split.
        -- intros txt -> Hf. now rewrite Hf.
        -- intros ra Hra ->. unfold float_of_element in Hra.
           destruct (xtext a) as [txt|]; [|discriminate].
           destruct (float_of_text txt); [reflexivity | discriminate].
Qed.

(** X14.  The answer of [resolve] depends on the response only through
    the first Resolver entry of each Target: two responses with the same
    root tag whose Targets have the same first Resolver entries give the
    same result, whatever else they hold; and a response whose root is not
    named Sesame gives the empty list. *)
Theorem resolve_depends_on_first_resolvers (tree tree' : XElem) :
  (xtag tree = xtag tree' ->
   first_resolvers tree = first_resolvers tree' ->
   resolve_tree tree = resolve_tree tree')
  /\ (xtag tree <> "Sesame" -> resolve_tree tree = Ok EmptyList).
Proof.
  split.
  - intros Htag Hfirst.
    assert (Hx : forall field,
               xpath_resolver_field field tree
               = xpath_resolver_field field tree').
    { intros field. unfold xpath_resolver_field. rewrite Htag.
      destruct (String.eqb (xtag tree') "Sesame"); [|reflexivity].
      f_equal. unfold xchild1.
      apply (flat_map_take1_heads (xchild "Resolver")). exact Hfirst. }
    unfold resolve_tree. now rewrite !Hx.
  - intros Hne. apply String.eqb_neq in Hne.
    unfold resolve_tree, xpath_resolver_field. now rewrite Hne.
Qed.
End ResolveEdges.

(** ** The timer as a context manager; the formatter and negative indexes *)

Section TimerEdges.
Context `{Env} {A B : Type}.
Import timeit.

Lemma with_timeit_unfold {R : Type} (body : M World R) (w : World) :
  with_timeit (A := A) (B := B) body w =
    let '(r, w2) := body (log_clock w) in
    match _pretty_print_time (elapsed w w2) with
    | Raise e => (Raise e, log_clock w2)
    | Ok txt =>
        match call_display txt (log_clock w2) with
        | (Raise e, w4) => (Raise e, w4)
        | (Ok _, w4) => (r, w4)
        end
    end.
Proof.
  unfold with_timeit, __init__, __enter__, __exit__, elapsed, bind,
    liftW, time_time, self_set, self_get, modify, gets, ret, raise.
  cbn.
  destruct (body (log_clock w)) as [r w2]; cbn.
  destruct (_pretty_print_time
              (float_sub (clock (clock_reads w2)) (clock (clock_reads w))))
    as [txt|e]; cbn; [|reflexivity].
  destruct (call_display txt (log_clock w2)) as [[[]|e] w4]; reflexivity.
Qed.

(** X15.  A block timed by [with timeit()] keeps its outcome when the
    formatter and the display return: what the block returned or raised
    comes out of the [with] statement, after the clock has been read once
    before and once after the block and the formatted difference of the
    two readings has been displayed.  An exception of the display, or of
    the formatter, replaces the outcome of the block, also its exception.
    The formatter returns whenever [math.log10] gives a finite number, 3
    at most, for a difference between 0 and 1000. *)
Theorem with_timeit_outcome {R : Type}
    (body : M World R) (w : World) (r : outcome R) (w2 : World)
    (d : string -> M World unit) :
  display = Some d ->
  body (log_clock w) = (r, w2) ->
  with_timeit (A := A) (B := B) body w
  = match _pretty_print_time (elapsed w w2) with
    | Ok txt =>
        match d txt (log_clock w2) with
        | (Ok _, w4) => (r, w4)
        | (Raise e, w4) => (Raise e, w4)
        end
    | Raise e => (Raise e, log_clock w2)
    end
  /\ (log10_below_1000 (elapsed w w2) ->
      exists txt, _pretty_print_time (elapsed w w2) = Ok txt).
Proof.
  intros Hd Hb. split.
  - rewrite with_timeit_unfold, Hb.
    destruct (_pretty_print_time (elapsed w w2)) as [txt|e]; [|reflexivity].
    unfold call_display. rewrite Hd.
    destruct (d txt (log_clock w2)) as [[[]|e] w4]; reflexivity.
  - apply pretty_print_time_total.
Qed.
End TimerEdges.

Section FormatterWrap.
Context `{Env}.

(** X17.  Where [math.log10] overestimates below one thousand, the index
    computed is negative and Python counts it from the end of the two
    tables: a reported floor of 3, 4 or 5 shows the duration in
    nanoseconds, multiplied by 10^9, and a reported floor of 15 or more
    raises [IndexError]. *)
Theorem pretty_print_time_negative_index (t : float) (f : Z) :
  float_lt float_0 t = true -> float_lt t float_1000 = true ->
  log10_floor t f ->
  (3 <= f < 6 ->
   _pretty_print_time t
   = Ok (format_float_g3 (float_mul t (float_of_Z 1000000000))
         ++ " " ++ "ns"))
  /\ (15 <= f -> _pretty_print_time t = Raise IndexError).
Proof.
  intros H0 H1 Hfl. unfold log10_floor in Hfl.
  unfold _pretty_print_time, time_order. rewrite H0, H1, Hfl. cbn [andb].
  split.
  - intros Hf. assert (Hd : f / 3 = 1).
    { symmetry. apply (Z.div_unique f 3 1 (f - 3)); lia. }
    rewrite Hd. reflexivity.
  - intros Hf. assert (Hd : 5 <= f / 3)
      by (apply Z.div_le_lower_bound; lia).
    assert (Ho : Z.min (- (f / 3)) 3 = - (f / 3)) by lia.
    rewrite Ho. unfold py_getitem. cbn [length scaling].
    destruct (0 <=? - (f / 3)) eqn:E0; [apply Z.leb_le in E0; lia|].
    destruct (0 <=? Z.of_nat 4 + - (f / 3)) eqn:E1;
      [apply Z.leb_le in E1; lia | reflexivity].
Qed.
End FormatterWrap.

(** ** Dictionaries *)

Lemma dict_get_set {V} (k k' : string) (v : V) (d : pydict V) :
  dict_get k' (dict_set k v d)
  = if String.eqb k k' then Some v else dict_get k' d.
Proof.
  induction d as [|[k0 v0] d IH]; cbn [dict_set dict_get].
  - reflexivity.
  - destruct (String.eqb k0 k) eqn:E0; cbn [dict_get].
    + apply String.eqb_eq in E0. subst k0.
      destruct (String.eqb k k'); reflexivity.
    + destruct (String.eqb k0 k') eqn:E1; [|exact IH].
      apply String.eqb_eq in E1. subst k0. now rewrite String.eqb_sym, E0.
Qed.

Lemma dict_get_app {V} (k : string) (d1 d2 : pydict V) :
  dict_get k (d1 ++ d2)%list
  = match dict_get k d1 with Some v => Some v | None => dict_get k d2 end.
Proof.
  induction d1 as [|[k0 v0] d1 IH]; cbn [dict_get app]; [reflexivity|].
  destruct (String.eqb k0 k); [reflexivity | exact IH].
Qed.

Lemma dict_get_update_last {V} (k : string) (kw : pydict V) :
  forall d,
    dict_get k (dict_update d kw)
    = match dict_get k (rev kw) with
      | Some v => Some v
      | None => dict_get k d
      end.
Proof.
  unfold dict_update.
  induction kw as [|[k1 v1] kw IH]; intros d; cbn [fold_left rev fst snd].
  - reflexivity.
  - rewrite IH, dict_get_app, dict_get_set. cbn [dict_get].
    destruct (dict_get k (rev kw)); [reflexivity|].
    destruct (String.eqb k1 k); reflexivity.
Qed.

Lemma dict_get_In {V} (k : string) (v : V) (d : pydict V) :
  List.NoDup (map fst d) -> (dict_get k d = Some v <-> In (k, v) d).
Proof.
  induction d as [|[k0 v0] d IH]; cbn [map fst dict_get]; intros Hnd.
  - split; [discriminate | intros []].
  - apply List.NoDup_cons_iff in Hnd as [Hnin Hnd].
    destruct (String.eqb k0 k) eqn:E.
    + apply String.eqb_eq in E. subst k0. split.
      * intros [= ->]. now left.
      * intros [[= ->] | Hin]; [reflexivity|].
        exfalso. apply Hnin. apply in_map_iff. now exists (k, v).
    + apply String.eqb_neq in E. rewrite (IH Hnd). split.
      * intros Hin. now right.
      * intros [[= -> ->] | Hin]; [congruence | exact Hin].
Qed.

Lemma dict_get_rev {V} (k : string) (d : pydict V) :
  List.NoDup (map fst d) -> dict_get k (rev d) = dict_get k d.
Proof.
  intros Hnd.
  assert (Hnd' : List.NoDup (map fst (rev d))).
  { rewrite map_rev. apply List.NoDup_rev. exact Hnd. }
  destruct (dict_get k d) as [v|] eqn:E.
  - apply (dict_get_In k v d Hnd) in E.
    apply (dict_get_In k v (rev d) Hnd'). now apply in_rev in E.
  - destruct (dict_get k (rev d)) as [v|] eqn:E'; [|reflexivity].
    apply (dict_get_In k v (rev d) Hnd') in E'. apply in_rev in E'.
    apply (dict_get_In k v d Hnd) in E'. congruence.
Qed.

(** Updating a dictionary: the new items win, the old ones stay. *)
Lemma dict_get_update {V} (k : string) (d kw : pydict V) :
  List.NoDup (map fst kw) ->
  dict_get k (dict_update d kw)
  = match dict_get k kw with Some v => Some v | None => dict_get k d end.
Proof.
  intros Hnd. now rewrite dict_get_update_last, dict_get_rev.
Qed.

Lemma dict_get_remove {V} (k k' : string) (d : pydict V) :
  dict_get k (dict_remove k' d)
  = if String.eqb k' k then None else dict_get k d.
Proof.
  unfold dict_remove.
  induction d as [|[k0 v0] d IH]; cbn [List.filter dict_get fst].
  - now destruct (String.eqb k' k).
  - destruct (String.eqb k0 k') eqn:E0; cbn [negb].
    + apply String.eqb_eq in E0. subst k0. rewrite IH.
      destruct (String.eqb k' k); reflexivity.
    + cbn [dict_get]. destruct (String.eqb k0 k) eqn:E; [|exact IH].
      apply String.eqb_eq in E. subst k0.
      rewrite String.eqb_sym in E0. now rewrite E0.
Qed.

Lemma NoDup_keys_remove {V} (k : string) (d : pydict V) :
  List.NoDup (map fst d) -> List.NoDup (map fst (dict_remove k d)).
Proof.
  unfold dict_remove. induction d as [|[k0 v0] d IH]; intros Hnd;
    cbn [List.filter fst].
  - constructor.
  - cbn [map fst] in Hnd. apply List.NoDup_cons_iff in Hnd as [Hnin Hnd].
    destruct (negb (String.eqb k0 k)); [|now apply IH].
    cbn [map fst]. apply List.NoDup_cons_iff. split; [|now apply IH].
    intros Hin. apply Hnin. apply in_map_iff in Hin as ([k1 v1] & Hk & Hin).
    cbn in Hk. subst k1. apply filter_In in Hin as [Hin _].
    apply in_map_iff. now exists (k0, v1).
Qed.

Lemma dict_get_form_of (k : string) (d : pydict pyval) :
  dict_get k (form_of d) = option_map py_str (dict_get k d).
Proof.
  unfold form_of. induction d as [|[k0 v0] d IH]; cbn [map dict_get fst snd];
    [reflexivity|].
  destruct (String.eqb k0 k); [reflexivity | exact IH].
Qed.

(** ** The query string *)

Section QueryStrFacts.
Context `{Env} `{JsonLib}.
Import QueryStr.

Lemma parse_sql_unfold (kwargs : pydict pyval) (q : t) (w : World) :
  parse_sql kwargs (q, w) =
    let pars := dict_update (_pars q) kwargs in
    let rq := requests_post (_parser q) (form_of pars) in
    let w1 := log_request rq w in
    match server (length (sent w)) rq with
    | None => (Raise OSError, (set_pars pars q, w1))
    | Some res =>
        match json_loads (resp_body res) with
        | None => (Raise ValueError, (set_pars pars q, w1))
        | Some j =>
            match json_getitem j "result" with
            | Raise e => (Raise e, (set_pars pars q, w1))
            | Ok v => (Ok tt, (set_text v (set_pars pars q), w1))
            end
        end
    end.
Proof.
  unfold parse_sql, bind, self_get, self_set, modify, gets, liftW, http.
  cbn.
  destruct (server (length (sent w)) _) as [res|]; cbn; [|reflexivity].
  destruct (json_loads (resp_body res)) as [j|]; cbn; [|reflexivity].
  destruct (json_getitem j "result"); reflexivity.
Qed.

Lemma init_unfold (adql : string) (kwargs : pydict pyval) (w : World) :
  __init__ adql kwargs w =
    let pars := init_pars adql kwargs in
    let w1 := log_request (format_request pars) w in
    match server (length (sent w)) (format_request pars) with
    | None => (Raise OSError, w1)
    | Some res =>
        match json_loads (resp_body res) with
        | None => (Raise ValueError, w1)
        | Some j =>
            match json_getitem j "result" with
            | Raise e => (Raise e, w1)
            | Ok v =>
                let obj := {| text := v;
                              _parser := "https://sqlformat.org/api/v1/format";
                              _pars := pars |} in
                if truthy (fst (dict_pop "verbose" (PBool true) kwargs))
                then (Ok obj, snd (call_display (shown_text obj) w1))
                else (Ok obj, w1)
            end
        end
    end.
Proof.
  unfold __init__, dict_pop. rewrite parse_sql_unfold. cbv zeta.
  cbn [_pars _parser]. fold (init_pars adql kwargs).
  fold (format_request (init_pars adql kwargs)).
  destruct (server (length (sent w)) _) as [res|]; [|reflexivity].
  destruct (json_loads (resp_body res)) as [j|]; [|reflexivity].
  destruct (json_getitem j "result") as [v|e]; [|reflexivity].
  cbn [set_text set_pars text _parser _pars].
  destruct (truthy _); [|reflexivity].
  destruct (call_display _ _); reflexivity.
Qed.

(** X18.  Making a [QueryStr] sends one POST to the formatting service.
    Its form holds, for every name, the value given as keyword argument,
    and otherwise the default: the query itself for sql, 0 for reindent,
    upper for keyword_case; verbose is never sent, and a keyword sql
    replaces the query.  Nothing else happens to the world, but for what
    [display] does. *)
Theorem QueryStr_request_form
    (adql : string) (kwargs : pydict pyval) (w : World) :
  List.NoDup (map fst kwargs) ->
  let data := form_of (init_pars adql kwargs) in
  let w1 :=
    log_request (requests_post "https://sqlformat.org/api/v1/format" data) w in
  (forall k,
      dict_get k data
      = if String.eqb k "verbose" then None
        else match dict_get k kwargs with
             | Some v => Some (py_str v)
             | None =>
                 dict_get k [("sql", adql); ("reindent", "0");
                             ("keyword_case", "upper")]
             end)
  /\ (snd (__init__ adql kwargs w) = w1
      \/ exists d txt,
           display = Some d /\ snd (__init__ adql kwargs w) = snd (d txt w1)).
Proof.
  intros Hnd data w1. subst data w1. split.
  - intros k. rewrite dict_get_form_of. unfold init_pars.
    rewrite dict_get_update by (now apply NoDup_keys_remove).
    rewrite dict_get_remove, (String.eqb_sym "verbose" k).
    destruct (String.eqb k "verbose") eqn:Ev.
    + apply String.eqb_eq in Ev. subst k. reflexivity.
    + destruct (dict_get k kwargs) as [v|]; [reflexivity|].
      cbn [dict_get]. 
      destruct (String.eqb "sql" k); [reflexivity|].
      destruct (String.eqb "reindent" k); [reflexivity|].
      destruct (String.eqb "keyword_case" k); reflexivity.
  - rewrite init_unfold. cbv zeta.
    fold (format_request (init_pars adql kwargs)).
    destruct (server (length (sent w)) _) as [res|]; [|now left].
    destruct (json_loads (resp_body res)) as [j|]; [|now left].
    destruct (json_getitem j "result") as [v|e]; [|now left].
    destruct (truthy _); [|now left].
    unfold call_display. destruct display as [d|]; [|now left].
    right. eauto.
Qed.

(** X19.  The outcome of making a [QueryStr] depends on the answer of the
    formatting service alone: no answer raises [OSError], a body that is
    no JSON [ValueError], a JSON value that is no object [TypeError], an
    object without the member result [KeyError]; otherwise the object is
    returned, its text being the member result and not the query given,
    whether or not [display] is there and whatever it raises.  Without
    IPython nothing is displayed and nothing is raised. *)
Theorem QueryStr_init_outcome
    (adql : string) (kwargs : pydict pyval) (w : World) :
  let rq := format_request (init_pars adql kwargs) in
  (server (length (sent w)) rq = None ->
   fst (__init__ adql kwargs w) = Raise OSError)
  /\ (forall res,
        server (length (sent w)) rq = Some res ->
        (json_loads (resp_body res) = None ->
         fst (__init__ adql kwargs w) = Raise ValueError)
        /\ (forall j,
              json_loads (resp_body res) = Some j ->
              ((forall members, j <> JObj members) ->
               fst (__init__ adql kwargs w) = Raise TypeError)
              /\ (forall members,
                    j = JObj members ->
                    dict_get "result" (rev members) = None ->
                    fst (__init__ adql kwargs w)
                    = Raise (UserError "KeyError"))
              /\ (forall v,
                    json_getitem j "result" = Ok v ->
                    exists obj,
                      fst (__init__ adql kwargs w) = Ok obj
                      /\ text obj = v
                      /\ _pars obj = init_pars adql kwargs
                      /\ (forall s, v = JStr s -> __str__ obj = Ok s)
                      /\ (display = None ->
                          snd (__init__ adql kwargs w)
                          = log_request rq w)))).
Proof.
  intros rq. subst rq. split.
  - intros Hs. rewrite init_unfold. cbv zeta. now rewrite Hs.
  - intros res Hs. split.
    + intros Hj. rewrite init_unfold. cbv zeta. now rewrite Hs, Hj.
    + intros j Hj. rewrite init_unfold. cbv zeta. rewrite Hs, Hj.
      split; [|split].
      * intros Hno. destruct j; try reflexivity. now destruct (Hno members).
      * intros members -> Hg. cbn [json_getitem]. now rewrite Hg.
      * intros v Hv. rewrite Hv. eexists. split.
        -- destruct (truthy _); reflexivity.
        -- split; [reflexivity|]. split; [reflexivity|]. split.
           ++ intros s ->. reflexivity.
           ++ intros Hd. unfold call_display. rewrite Hd.
              destruct (truthy _); reflexivity.
Qed.

(** X20.  The options of a [QueryStr] accumulate: after [parse_sql] has
    returned with the options [kw1], a second [parse_sql] with [kw2] sends
    one more POST whose form holds the values of [kw2], then those of
    [kw1], then the ones the object held before. *)
Theorem parse_sql_options_accumulate
    (q q1 : t) (kw1 kw2 : pydict pyval) (w w1 : World) :
  List.NoDup (map fst kw1) ->
  List.NoDup (map fst kw2) ->
  parse_sql kw1 (q, w) = (Ok tt, (q1, w1)) ->
  exists data,
    sent (snd (snd (parse_sql kw2 (q1, w1))))
    = (sent w1 ++ [requests_post (_parser q) data])%list
    /\ forall k,
         dict_get k data
         = match dict_get k kw2 with
           | Some v => Some (py_str v)
           | None =>
               match dict_get k kw1 with
               | Some v => Some (py_str v)
               | None => option_map py_str (dict_get k (_pars q))
               end
           end.
Proof.
  intros Hnd1 Hnd2 Hrun. rewrite parse_sql_unfold in Hrun. cbv zeta in Hrun.
  assert (Hq1 : _pars q1 = dict_update (_pars q) kw1 /\ _parser q1 = _parser q).
  { destruct (server (length (sent w)) _) as [res|]; [|discriminate].
    destruct (json_loads (resp_body res)) as [j|]; [|discriminate].
    destruct (json_getitem j "result"); [|discriminate].
    injection Hrun as <- _. split; reflexivity. }
  destruct Hq1 as [Hp Hu].
  exists (form_of (dict_update (_pars q1) kw2)). split.
  - rewrite parse_sql_unfold. cbv zeta. rewrite Hu.
    destruct (server (length (sent w1)) _) as [res|]; [|reflexivity].
    destruct (json_loads (resp_body res)) as [j|]; [|reflexivity].
    destruct (json_getitem j "result"); reflexivity.
  - intros k. rewrite dict_get_form_of, dict_get_update by exact Hnd2.
    destruct (dict_get k kw2); [reflexivity|].
    rewrite Hp, dict_get_update by exact Hnd1.
    destruct (dict_get k kw1); reflexivity.
Qed.
End QueryStrFacts.

(** ** Showing a job in a notebook *)

Section JobNotebook.
Context `{Env}.
Import TAP_AsyncQuery.

(** X21.  Without IPython the notebook text of a job is nothing, whatever
    its state.  With IPython it raises exactly on a job that holds no
    response, as a new job does, and the exception is [AttributeError];
    once a [submit] has been answered by the server, with or without a
    location header, the text is there. *)
Theorem repr_markdown_needs_response (q : t) :
  (_repr_markdown_ q = Ok None <-> display = None)
  /\ (forall e,
        _repr_markdown_ q = Raise e
        <-> display <> None /\ response q = None /\ e = AttributeError)
  /\ (forall adql_query h p po,
        display <> None ->
        _repr_markdown_ (__init__ adql_query h p po) = Raise AttributeError)
  /\ (forall silent w resp,
        server (length (sent w)) (submit_request q) = Some resp ->
        display <> None ->
        exists txt,
          _repr_markdown_ (fst (snd (submit silent (q, w))))
          = Ok (Some txt)).
Proof.
  unfold _repr_markdown_. split; [|split; [|split]].
  - destruct display as [d|].
    + destruct (response q); split; discriminate.
    + split; reflexivity.
  - intros e. destruct display as [d|].
    + destruct (response q) as [r|].
      * split; [discriminate | intros (_ & Hr & _); discriminate].
      * split; [intros [= <-]; repeat split; discriminate
               | intros (_ & _ & ->); reflexivity].
    + split; [discriminate | intros (Hd & _); now destruct Hd].
  - intros adql_query h p po Hd. destruct display; [reflexivity|].
    now destruct Hd.
  - intros silent w resp Hs Hd. rewrite submit_unfold. cbv zeta. rewrite Hs.
    destruct display; [|now destruct Hd].
    destruct (getheader resp "location"); cbn; eauto.
Qed.
End JobNotebook.

(** ** The further statements at concrete inputs *)

Lemma submit_without_location_keeps_jobid_witness :
  exists q',
    TAP_AsyncQuery.submit
      (H := with_server (mock_env always_error sesame_m31 true)
              (plain_server always_error))
      true (mock_job, world0)
    = (Raise AttributeError,
       (q', log_request (TAP_AsyncQuery.submit_request mock_job) world0))
    /\ TAP_AsyncQuery.jobid q' = Some "1234"
    /\ TAP_AsyncQuery.location q' = None.
Proof.
  destruct (submit_without_location_keeps_jobid
              (H := with_server (mock_env always_error sesame_m31 true)
                      (plain_server always_error))
              true mock_job world0 _ eq_refl eq_refl)
    as (q' & Hrun & _ & Hl & Hj & _).
  exists q'. split; [exact Hrun|]. split; [exact Hj | exact Hl].
Defined.

Lemma get_negative_sleep_raises_witness :
  exists q',
    TAP_AsyncQuery.get (H := mock_env completes_at_2 sesame_m31 true)
      1 (-1 # 5) true (mock_job, world0)
    = Some (Raise ValueError,
            (q', log_request (TAP_AsyncQuery.status_request mock_job "1234")
                   world0)).
Proof.
  destruct (get_negative_sleep_raises
              (H := mock_env completes_at_2 sesame_m31 true)
              mock_job "1234" world0 (-1 # 5) "EXECUTING"
              eq_refl eq_refl eq_refl ltac:(discriminate) 0%nat)
    as (q' & Hrun & _).
  exists q'. exact Hrun.
Defined.

Lemma get_poll_failure_propagates_witness :
  exists s',
    TAP_AsyncQuery.get
      (H := with_server (mock_env always_error sesame_m31 true)
              (failing_from 1 always_error))
      2 (1 # 5) true (mock_job, world0)
    = Some (Raise OSError, s')
    /\ slept (snd s') = [1 # 5]%Q.
Proof.
  destruct (get_poll_failure_propagates
              (H := with_server (mock_env always_error sesame_m31 true)
                      (failing_from 1 always_error))
              mock_job "1234" world0 (1 # 5) 1 OSError eq_refl
              ltac:(discriminate)) with (fuel := 0%nat)
    as (s' & Hrun & _ & Hslept).
  - intros [|i] Hi; [|lia]. exists "ERROR".
    split; [reflexivity | discriminate].
  - reflexivity.
  - exists s'. split; [exact Hrun | exact Hslept].
Defined.

Lemma get_completed_result_witness :
  exists q' w',
    TAP_AsyncQuery.get
      (H := mock_env (fun _ => "COMPLETED") sesame_m31 true)
      1 (1 # 5) false (mock_job, world0)
    = Some (Ok (Some "COMPLETED"), (q', w'))
    /\ TAP_AsyncQuery.data q' = Some "COMPLETED".
Proof.
  destruct (get_completed_result
              (H := mock_env (fun _ => "COMPLETED") sesame_m31 true)
              mock_job "1234" world0 (1 # 5) false _
              eq_refl eq_refl eq_refl eq_refl 0%nat)
    as (q' & w' & Hrun & Hdata & _).
  exists q', w'. split; [exact Hrun | exact Hdata].
Defined.

Lemma get_sends_only_reads_witness :
  exists r q' w',
    TAP_AsyncQuery.get (H := mock_env completes_at_2 sesame_m31 true)
      3 (1 # 5) true (mock_job, world0) = Some (r, (q', w'))
    /\ TAP_AsyncQuery.same_job mock_job q'.
Proof.
  do 3 eexists. split; [vm_compute; reflexivity|].
  refine (proj1 (get_sends_only_reads
                   (H := mock_env completes_at_2 sesame_m31 true)
                   mock_job "1234" world0 3 (1 # 5) true _ _ _ eq_refl _)).
  vm_compute. reflexivity.
Defined.

Lemma status_reads_phase_at_any_depth_witness :
  exists ch c,
    descendant
      (Element "#document"
         [Element "uws:job" [Element "uws:phase" [Text "ERROR"]]])
      (Element "uws:phase" ch)
    /\ firstChild (Element "uws:phase" ch) = Some c
    /\ "ERROR" = toxml (Env := mock_env always_error sesame_m31 true) c.
Proof.
  refine (proj2 (proj2
            (status_reads_phase_at_any_depth
               (H := mock_env always_error sesame_m31 true)
               mock_job "1234" world0 _ _ eq_refl eq_refl eq_refl))
            "ERROR" eq_refl).
Defined.

Lemma query_keeps_connection_data_witness :
  TAP_Service.tap_endpoint TAPVizieR
  = "http://tapvizier.u-strasbg.fr/TAPVizieR/tap"
  /\ exists rq, [rq] = [TAP_Service.sync_request TAPVizieR "SELECT 1"].
Proof.
  pose proof (query_keeps_connection_data
                (H := mock_env always_error sesame_m31 true)
                "SELECT 1" true TAPVizieR world0 _ _ _ eq_refl)
    as (_ & _ & _ & He & (rq & Hrq) & _).
  split; [exact He|]. exists rq. symmetry. exact Hrq.
Defined.

Lemma query_async_request_paths_witness :
  exists q w',
    TAP_Service.query (H := mock_env always_error sesame_m31 true)
      "SELECT 1" false (GaiaArchive, world0)
    = (Ok (TAP_Service.QJob q), (GaiaArchive, w'))
    /\ TAP_AsyncQuery.status_request q "1234"
       = HTTPConnection_request "gea.esac.esa.int" 80 "GET"
           "/tap-server/tap/async/1234" None [].
Proof.
  destruct (query_async_request_paths
              (H := mock_env always_error sesame_m31 true)
              "SELECT 1" GaiaArchive world0 _ _ eq_refl eq_refl)
    as (q & w' & Hrun & _ & Hst & _).
  exists q, w'. split; [exact Hrun | exact Hst].
Defined.

Lemma query_async_unknown_keyword_witness :
  TAP_Service.query_async (H := mock_env always_error sesame_m31 true)
    "SELECT 1" true {["quiet" := true]} (GaiaArchive, world0)
  = (Raise TypeError, (GaiaArchive, world0)).
Proof.
  refine (proj1 (proj1 (query_async_unknown_keyword
                          (H := mock_env always_error sesame_m31 true)
                          "SELECT 1" {["quiet" := true]} GaiaArchive world0)
                   "quiet" true _ _)).
  - vm_compute. reflexivity.
  - discriminate.
Defined.

Lemma resolve_failure_modes_witness :
  fst (resolve (H := mock_env always_error sesame_no_declination true)
         "M31" world0)
  = Raise IndexError
  /\ resolve (H := mock_env always_error sesame_m31 true) "M 31" world0
     = (Raise InvalidURL, world0).
Proof.
  split.
  - pose proof (resolve_failure_modes
                  (H := mock_env always_error sesame_no_declination true)
                  "M31" world0) as (_ & _ & Hsent).
    destruct (Hsent eq_refl) as (_ & _ & _ & Hans).
    destruct (Hans _ eq_refl) as (_ & Htree).
    destruct (Htree _ eq_refl) as (_ & Hra).
    destruct (Hra _ _ eq_refl) as (_ & _ & Hdec).
    exact (Hdec (1068 # 100)%Q eq_refl eq_refl).
  - pose proof (resolve_failure_modes
                  (H := mock_env always_error sesame_m31 true)
                  "M 31" world0) as (_ & Hchar & _).
    exact (proj1 (Hchar "M" " "%char "31" eq_refl) eq_refl).
Defined.

Lemma resolve_depends_on_first_resolvers_witness :
  resolve_tree (H := mock_env always_error sesame_m31 true) sesame_m31
  = resolve_tree (H := mock_env always_error sesame_m31 true)
      sesame_m31_two_resolvers.
Proof.
  refine (proj1 (resolve_depends_on_first_resolvers
                   (H := mock_env always_error sesame_m31 true)
                   sesame_m31 sesame_m31_two_resolvers) eq_refl eq_refl).
Defined.

Lemma with_timeit_outcome_witness :
  timeit.with_timeit (H := mock_env always_error sesame_m31 true)
    (A := unit) (B := unit) (raise (A := Z) ValueError) world0
  = (Raise ValueError, log_shown "500 ms" (log_clock (log_clock world0))).
Proof.
  exact (proj1 (with_timeit_outcome
                  (H := mock_env always_error sesame_m31 true)
                  (A := unit) (B := unit)
                  (raise (A := Z) ValueError) world0 _ _
                  (fun text => modify (log_shown text)) eq_refl eq_refl)).
Defined.

Lemma pretty_print_time_negative_index_witness :
  _pretty_print_time
    (H := with_math_log10 (mock_env always_error sesame_m31 true)
            rounding_log10)
    below_1000
  = Ok "1e+12 ns".
Proof.
  refine (proj1 (pretty_print_time_negative_index
                   (H := with_math_log10
                           (mock_env always_error sesame_m31 true)
                           rounding_log10)
                   below_1000 3 eq_refl eq_refl eq_refl) _).
  lia.
Defined.

Lemma QueryStr_request_form_witness :
  dict_get "reindent"
    (form_of (QueryStr.init_pars "select 1"
                [("verbose", PBool false); ("reindent", PInt 1)]))
  = Some "1".
Proof.
  refine (proj1 (QueryStr_request_form
                   (H := mock_env always_error sesame_m31 true)
                   (H0 := mock_json) "select 1"
                   [("verbose", PBool false); ("reindent", PInt 1)]
                   world0 _) "reindent").
  repeat constructor; cbn; intuition discriminate.
Defined.

Lemma QueryStr_init_outcome_witness :
  exists obj,
    fst (QueryStr.__init__ (H := mock_env always_error sesame_m31 false)
           (H0 := mock_json) "select 1" [] world0)
    = Ok obj
    /\ QueryStr.__str__ obj = Ok "<VOTABLE/>".
Proof.
  pose proof (QueryStr_init_outcome
                (H := mock_env always_error sesame_m31 false)
                (H0 := mock_json) "select 1" [] world0) as (_ & Hans).
  destruct (Hans _ eq_refl) as (_ & Hjson).
  destruct (Hjson _ eq_refl) as (_ & _ & Hres).
  destruct (Hres (JStr "<VOTABLE/>") eq_refl)
    as (obj & Hrun & _ & _ & Hstr & _).
  exists obj. split; [exact Hrun | now apply Hstr].
Defined.

Lemma parse_sql_options_accumulate_witness :
  exists data,
    dict_get "reindent" data = Some "1"
    /\ dict_get "keyword_case" data = Some "lower".
Proof.
  edestruct (parse_sql_options_accumulate
               (H := mock_env always_error sesame_m31 true) (H0 := mock_json)
               {| QueryStr.text := JStr "select 1";
                  QueryStr._parser := "https://sqlformat.org/api/v1/format";
                  QueryStr._pars := [("sql", PStr "select 1")] |})
    with (kw1 := [("reindent", PInt 1)])
         (kw2 := [("keyword_case", PStr "lower")]) (w := world0)
    as (data & _ & Hget).
  - repeat constructor; cbn; intuition discriminate.
  - repeat constructor; cbn; intuition discriminate.
  - vm_compute. reflexivity.
  - exists data. split; rewrite Hget; reflexivity.
Defined.

Lemma repr_markdown_needs_response_witness :
  TAP_AsyncQuery._repr_markdown_
    (H := mock_env always_error sesame_m31 true)
    (TAP_AsyncQuery.__init__ "SELECT 1" "example.org" "/tap/async" 80)
  = Raise AttributeError.
Proof.
  refine (proj1 (proj2 (proj2
            (repr_markdown_needs_response
               (H := mock_env always_error sesame_m31 true) mock_job)))
            "SELECT 1" "example.org" "/tap/async" 80 _).
  discriminate.
Defined.
